(** * Sigle: the historical analytics endpoint

    A shallow embedding of [sigle/src/pages/api/analytics/historical.api.ts]
    (the handler [analyticsHistoricalEndpoint]) together with the few
    JavaScript and date-fns primitives it calls, and the properties of its
    three stages: input validation, date-range scaffolding, and the
    merge / write-back of the per-path provider results. *)

From Stdlib Require Import ZArith List Sorted Bool Lia Ascii String.
From Stdlib Require Import DecimalString DecimalN.
From Stdlib Require Import Permutation.
Import ListNotations.

Local Open Scope string_scope.
Local Open Scope list_scope.
Local Open Scope Z_scope.

(* ================================================================= *)
(** ** JavaScript primitives *)

Module JS.

(** A JavaScript [number] as the handler uses it: an integer or [NaN].
    Integers are kept exact; the embedding covers magnitudes below 2^53,
    where double-precision addition of integers is exact. *)
Inductive number : Type :=
| NaN : number
| Num : Z -> number.

(** [a + b] on numbers. *)
Definition add (a b : number) : number :=
  match a, b with
  | Num x, Num y => Num (x + y)
  | _, _ => NaN
  end.

(** A non-negative integer (what the data model asks of a bucket field). *)
Definition isNonNegativeInteger (n : number) : Prop :=
  match n with
  | Num z => 0 <= z
  | NaN => False
  end.

(** Code units are modelled as [ascii] (0..255).  White space as
    [parseInt] and the regular-expression class [\s] see it: TAB, LF, VT,
    FF, CR, SPACE and NBSP. *)
Definition isWhiteSpace (c : ascii) : bool :=
  let n := nat_of_ascii c in
  ((9 <=? n) && (n <=? 13))%nat || (n =? 32)%nat || (n =? 160)%nat.

Definition digitValue (c : ascii) : option Z :=
  let n := nat_of_ascii c in
  if ((48 <=? n) && (n <=? 57))%nat then Some (Z.of_nat n - 48) else None.

Fixpoint trimStart (s : string) : string :=
  match s with
  | String c rest => if isWhiteSpace c then trimStart rest else s
  | EmptyString => EmptyString
  end.

(** The value of the longest prefix of decimal digits of [s], continuing
    from [acc]; [None] while no digit has been read. *)
Fixpoint digitsPrefix (s : string) (acc : option Z) : option Z :=
  match s with
  | String c rest =>
      match digitValue c with
      | Some d =>
          digitsPrefix rest
            (Some (10 * match acc with Some a => a | None => 0 end + d))
      | None => acc
      end
  | EmptyString => acc
  end.

(** [parseInt(s, 10)]: leading white space is skipped, one sign is
    accepted, then the longest run of digits is read; no digit gives
    [NaN]. *)
Definition parseInt (s : string) : number :=
  let s' := trimStart s in
  let '(sign, body) :=
    match s' with
    | String "-" rest => (-1, rest)
    | String "+" rest => (1, rest)
    | _ => (1, s')
    end in
  match digitsPrefix body None with
  | Some v => Num (sign * v)
  | None => NaN
  end.

(** Truthiness of an optional string ([undefined] and [""] are falsy). *)
Definition truthy (s : option string) : bool :=
  match s with
  | Some (String _ _) => true
  | _ => false
  end.

(** [Array.prototype.findIndex]; [None] stands for [-1]. *)
Fixpoint findIndex {A : Type} (p : A -> bool) (l : list A) : option nat :=
  match l with
  | [] => None
  | x :: rest =>
      if p x then Some O
      else match findIndex p rest with
           | Some i => Some (S i)
           | None => None
           end
  end.

(** [l[index] = f(l[index])] for an index inside the array. *)
Fixpoint updateAt {A : Type} (index : nat) (f : A -> A) (l : list A) : list A :=
  match l, index with
  | [], _ => []
  | x :: rest, O => f x :: rest
  | x :: rest, S i => x :: updateAt i f rest
  end.

(** Decimal [Number.prototype.toString] of a natural number. *)
Definition toString (n : N) : string :=
  NilEmpty.string_of_uint (N.to_uint n).

Fixpoint repeat0 (n : nat) : string :=
  match n with
  | O => EmptyString
  | S k => String "0" (repeat0 k)
  end.

(** Reading a zero-padded decimal back (the inverse of [toString] after
    padding). *)
Definition readDecimal (s : string) : option N :=
  option_map N.of_uint (NilEmpty.uint_of_string s).

End JS.

(* ================================================================= *)
(** ** The date-fns functions the handler imports *)

Module DateFns.

(** A valid [Date], seen through its local calendar fields: [month] is
    1..12, [day] the day of the month, [timeOfDay] the milliseconds since
    local midnight.  The local time line is taken without clock changes,
    so the order of two instants is the lexicographic order of their
    fields.  An [Invalid Date] is [None] (see [parse]). *)
Record DateTime : Type := mkDateTime {
  year : Z;
  month : Z;
  day : Z;
  timeOfDay : Z
}.

Definition isLeapYearIndex (y : Z) : bool :=
  (y mod 400 =? 0) || ((y mod 4 =? 0) && negb (y mod 100 =? 0)).

Definition daysInMonth (y m : Z) : Z :=
  if m =? 2 then (if isLeapYearIndex y then 29 else 28)
  else if (m =? 4) || (m =? 6) || (m =? 9) || (m =? 11) then 30
  else 31.

(** The fields name a day of the calendar. *)
Definition validDay (d : DateTime) : Prop :=
  1 <= month d <= 12 /\ 1 <= day d <= daysInMonth (year d) (month d).

(** [isValid(date)]. *)
Definition isValid (d : option DateTime) : bool :=
  match d with
  | Some _ => true
  | None => false
  end.

Definition compareDate (a b : DateTime) : comparison :=
  match year a ?= year b with
  | Eq =>
      match month a ?= month b with
      | Eq =>
          match day a ?= day b with
          | Eq => timeOfDay a ?= timeOfDay b
          | c => c
          end
      | c => c
      end
  | c => c
  end.

(** [isBefore(date, dateToCompare)]: is the first instant earlier. *)
Definition isBefore (a b : DateTime) : bool :=
  match compareDate a b with
  | Lt => true
  | _ => false
  end.

(** The next calendar day, same time of day: what [setDate(getDate() + 1)]
    leaves in the fields. *)
Definition nextDay (d : DateTime) : DateTime :=
  if day d <? daysInMonth (year d) (month d) then
    mkDateTime (year d) (month d) (day d + 1) (timeOfDay d)
  else if month d <? 12 then
    mkDateTime (year d) (month d + 1) 1 (timeOfDay d)
  else
    mkDateTime (year d + 1) 1 1 (timeOfDay d).

(** [addDays(date, amount)] for a non-negative [amount]. *)
Definition addDays (d : DateTime) (amount : nat) : DateTime :=
  Nat.iter amount nextDay d.

(** [addLeadingZeros(number, targetLength)]. *)
Definition addLeadingZeros (number : Z) (targetLength : nat) : string :=
  let output := JS.toString (Z.to_N (Z.abs number)) in
  let sign := if number <? 0 then "-" else "" in
  String.append sign
    (String.append (JS.repeat0 (targetLength - String.length output)) output).

(** [format(date, 'yyyy-MM-dd')]. *)
Definition format (d : DateTime) : string :=
  let y := if 0 <? year d then year d else 1 - year d in
  (addLeadingZeros y 4 ++ "-" ++ addLeadingZeros (month d) 2
     ++ "-" ++ addLeadingZeros (day d) 2)%string.

(** The numeric patterns [/^\d{1,n}/] of the parser: up to [n] digits,
    as many as there are. *)
Fixpoint takeDigits (n : nat) (s : string) (acc : option Z) : option Z * string :=
  match n with
  | O => (acc, s)
  | S k =>
      match s with
      | String c rest =>
          match JS.digitValue c with
          | Some v =>
              takeDigits k rest
                (Some (10 * match acc with Some a => a | None => 0 end + v))
          | None => (acc, s)
          end
      | EmptyString => (acc, s)
      end
  end.

Fixpoint allWhiteSpace (s : string) : bool :=
  match s with
  | String c rest => JS.isWhiteSpace c && allWhiteSpace rest
  | EmptyString => true
  end.

(** [parse(dateString, 'yyyy-MM-dd', new Date())]: year, month and day of
    the month are read as digit runs separated by ["-"], then validated
    (a year above 0, a month of the year, a day of that month); what is
    left of the input may only be white space.  The result is local
    midnight of that day, or an [Invalid Date]. *)
Definition parse (dateString : string) : option DateTime :=
  match takeDigits 4 dateString None with
  | (Some y, String "-" s1) =>
      match takeDigits 2 s1 None with
      | (Some m, String "-" s2) =>
          match takeDigits 2 s2 None with
          | (Some d, rest) =>
              if allWhiteSpace rest && (0 <? y)
                 && (1 <=? m) && (m <=? 12)
                 && (1 <=? d) && (d <=? daysInMonth y m)
              then Some (mkDateTime y m d 0)
              else None
          | (None, _) => None
          end
      | _ => None
      end
  | _ => None
  end.

End DateFns.

(* ================================================================= *)
(** ** Plain objects used as string-keyed maps *)

Module Obj.

(** The own properties of an object, in the order they were created.
    Lookups see own properties only: the keys (here, provider dates) are
    taken to differ from the names every plain object inherits
    ([constructor], [toString], [__proto__] and the like). *)
Definition t (V : Type) : Type := list (string * V).

Section Properties.
Context {V : Type}.

(** [o[key]] ([None] is [undefined]). *)
Fixpoint get (key : string) (o : t V) : option V :=
  match o with
  | [] => None
  | (k, v) :: rest => if String.eqb k key then Some v else get key rest
  end.

(** [o[key] = f(o[key])] on a property that exists. *)
Fixpoint update (key : string) (f : V -> V) (o : t V) : t V :=
  match o with
  | [] => []
  | (k, v) :: rest =>
      if String.eqb k key then (k, f v) :: rest
      else (k, v) :: update key f rest
  end.

(** [o[key] = v]: an existing property keeps its place, a new one is
    created last. *)
Definition set (key : string) (v : V) (o : t V) : t V :=
  match get key o with
  | Some _ => update key (fun _ => v) o
  | None => o ++ [(key, v)]
  end.

(** A key that is an array index: the canonical decimal string of an
    integer in 0 .. 2^32 - 2. *)
Definition arrayIndex (key : string) : option Z :=
  match JS.digitsPrefix key None with
  | Some v =>
      if (v <=? 4294967294) && String.eqb (JS.toString (Z.to_N v)) key
      then Some v else None
  | None => None
  end.

Fixpoint insertByIndex (i : Z) (e : string * V) (l : list (Z * (string * V)))
  : list (Z * (string * V)) :=
  match l with
  | [] => [(i, e)]
  | (j, e') :: rest =>
      if i <=? j then (i, e) :: l else (j, e') :: insertByIndex i e rest
  end.

Fixpoint indexEntries (o : t V) : list (Z * (string * V)) :=
  match o with
  | [] => []
  | e :: rest =>
      match arrayIndex (fst e) with
      | Some i => insertByIndex i e (indexEntries rest)
      | None => indexEntries rest
      end
  end.

Definition isNamed (e : string * V) : bool :=
  match arrayIndex (fst e) with
  | Some _ => false
  | None => true
  end.

(** The own properties in enumeration order: array-index keys first, in
    ascending numeric order, then the other keys in creation order. *)
Definition entries (o : t V) : list (string * V) :=
  map snd (indexEntries o) ++ filter isNamed o.

(** [Object.keys(o)]. *)
Definition keys (o : t V) : list string := map fst (entries o).

End Properties.
End Obj.

(* ================================================================= *)
(** ** The handler [analyticsHistoricalEndpoint] *)

Module Fathom.

(** One element of what [fathomClient.aggregatePath] resolves to. *)
Record AggregationRow : Type := mkRow {
  date : string;
  visits : string;
  pageviews : string
}.

End Fathom.

Module Sigle.

Import DateFns.

(** [req.query], cast to [AnalyticsHistoricalParams]. *)
Record AnalyticsHistoricalParams : Type := mkParams {
  dateFrom : option string;
  dateGrouping : option string
}.

(** An element of [AnalyticsHistoricalResponse]. *)
Record Bucket : Type := mkBucket {
  date : string;
  visits : JS.number;
  pageviews : JS.number
}.

(** A value of [datesValues]. *)
Record DateValues : Type := mkDateValues {
  totalVisits : JS.number;
  totalPageviews : JS.number
}.

Record PublicStory : Type := mkPublicStory { id : string }.

Record Profile : Type := mkProfile { profileName : string }.

(** What [getBucketUrl] resolves to. *)
Record BucketUrlResult : Type := mkBucketUrlResult {
  profile : option Profile;
  bucketUrl : option string
}.

(** The collaborators of one request: the clock ([new Date()], read
    once), the profile and story lookups, the analytics provider and the
    error reporter, which returns the identifier of the report.  Each call
    is taken to resolve; a promise that rejects makes the handler throw
    without a response of its own, and is not described here. *)
Record Env : Type := mkEnv {
  now : DateTime;
  getBucketUrl : AnalyticsHistoricalParams -> string -> BucketUrlResult;
  getPublicStories : string -> list PublicStory;
  aggregatePath : string -> string -> string -> list Fathom.AggregationRow;
  captureMessage : string -> string
}.

Inductive Body : Type :=
| ErrorBody (error : string)
| SeriesBody (series : list Bucket).

(** What the handler does to the outside, in program order. *)
Inductive Event : Type :=
| CallGetBucketUrl (username : string)
| CallGetPublicStories (bucketUrl : string)
| CallAggregatePath (dateFrom dateGrouping path : string)
| CallCaptureMessage (message : string)
| Respond (status : Z) (body : Body).

Definition username : string := "sigleapp.id.blockstack".

(** *** Validation (lines 34-52) *)

Definition validate (query : AnalyticsHistoricalParams)
  : string + (string * DateTime * string) :=
  match dateFrom query with
  | None | Some EmptyString => inl "dateFrom is required"
  | Some dateFrom =>
      match parse dateFrom with
      | None => inl "dateFrom is invalid"
      | Some parsedDateFrom =>
          match dateGrouping query with
          | None | Some EmptyString => inl "dateGrouping is required"
          | Some dateGrouping =>
              if negb (String.eqb dateGrouping "day")
                 && negb (String.eqb dateGrouping "month")
              then inl "dateGrouping must be day or month"
              else inr (dateFrom, parsedDateFrom, dateGrouping)
          end
      end
  end.

(** *** The scaffold (lines 58-71) *)

Definition zeroBucket (d : DateTime) : Bucket :=
  mkBucket (format d) (JS.Num 0) (JS.Num 0).

(** The [while] loop; [None] when [fuel] iterations do not reach its
    end. *)
Fixpoint scaffoldLoop (fuel : nat) (parsedDateFrom dateTo : DateTime)
    (historicalResponse : list Bucket) : option (list Bucket) :=
  match fuel with
  | O => None
  | S fuel' =>
      if isBefore parsedDateFrom dateTo then
        scaffoldLoop fuel' (addDays parsedDateFrom 1) dateTo
          (historicalResponse ++ [zeroBucket parsedDateFrom])
      else Some historicalResponse
  end.

(** A rank of calendar days that grows with every [nextDay]. *)
Definition dayRank (d : DateTime) : Z :=
  (12 * year d + month d) * 31 + day d.

(** Iterations that are enough for the loop from a day of the calendar. *)
Definition scaffoldFuel (parsedDateFrom dateTo : DateTime) : nat :=
  Z.to_nat (Z.max 1 ((12 * year dateTo + 12) * 31 + 33 - dayRank parsedDateFrom)).

Definition scaffold (parsedDateFrom dateTo : DateTime) : option (list Bucket) :=
  scaffoldLoop (scaffoldFuel parsedDateFrom dateTo) parsedDateFrom dateTo [].

(** *** The path list (lines 82-87) *)

Definition storiesPath (publicStoriesFile : list PublicStory) : list string :=
  map (fun publicStory => ("/" ++ username ++ "/" ++ id publicStory)%string)
      publicStoriesFile
  ++ [("/" ++ username)%string].

(** *** The merge (lines 100-112) *)

Definition accumulate (datesValues : Obj.t DateValues) (result : Fathom.AggregationRow)
  : Obj.t DateValues :=
  let datesValues :=
    match Obj.get (Fathom.date result) datesValues with
    | None => Obj.set (Fathom.date result) (mkDateValues (JS.Num 0) (JS.Num 0)) datesValues
    | Some _ => datesValues
    end in
  let datesValues :=
    Obj.update (Fathom.date result)
      (fun v => mkDateValues
                  (JS.add (totalVisits v) (JS.parseInt (Fathom.visits result)))
                  (totalPageviews v)) datesValues in
  Obj.update (Fathom.date result)
    (fun v => mkDateValues
                (totalVisits v)
                (JS.add (totalPageviews v) (JS.parseInt (Fathom.pageviews result))))
    datesValues.

Definition merge (fathomAggregationResult : list (list Fathom.AggregationRow))
  : Obj.t DateValues :=
  fold_left (fun datesValues aggregationResult =>
               fold_left accumulate aggregationResult datesValues)
            fathomAggregationResult [].

(** *** The write-back (lines 114-128) *)

(** One call of the [forEach] callback.  Its [return] after the 500
    response leaves the callback only: the iteration goes on with the
    next key. *)
Definition writeBackStep (env : Env)
    (state : list Bucket * list Event) (entry : string * DateValues)
  : list Bucket * list Event :=
  let '(historicalResponse, events) := state in
  let '(date', dateValues) := entry in
  match JS.findIndex (fun historical => String.eqb (date historical) date')
                     historicalResponse with
  | None =>
      let message :=
        ("No index for date " ++ date' ++ " and username " ++ username)%string in
      let errorId := captureMessage env message in
      (historicalResponse,
       events ++ [CallCaptureMessage message;
                  Respond 500 (ErrorBody ("Internal server error: " ++ errorId)%string)])
  | Some index =>
      let historicalResponse :=
        JS.updateAt index
          (fun b => mkBucket (date b) (totalVisits dateValues) (pageviews b))
          historicalResponse in
      let historicalResponse :=
        JS.updateAt index
          (fun b => mkBucket (date b) (visits b) (totalPageviews dateValues))
          historicalResponse in
      (historicalResponse, events)
  end.

(** [Object.keys(datesValues).forEach(..)]: every key in enumeration
    order, with its value [datesValues[date]]. *)
Definition writeBack (env : Env) (datesValues : Obj.t DateValues)
    (state : list Bucket * list Event) : list Bucket * list Event :=
  fold_left (writeBackStep env) (Obj.entries datesValues) state.

(** *** The handler *)

(** Lines 73-130: resolution, fetch, merge, write-back and the final
    response, from a scaffolded [historicalResponse]. *)
Definition aggregate (env : Env) (query : AnalyticsHistoricalParams)
    (dateFrom dateGrouping : string) (historicalResponse : list Bucket)
  : list Event :=
  let resolved := getBucketUrl env query username in
  match profile resolved, bucketUrl resolved with
  | Some _, Some (String c u) =>
      let bucketUrl := String c u in
      let publicStoriesFile := getPublicStories env bucketUrl in
      let paths := storiesPath publicStoriesFile in
      let fathomAggregationResult :=
        map (fun path => aggregatePath env dateFrom dateGrouping path) paths in
      let datesValues := merge fathomAggregationResult in
      let '(historicalResponse, events) :=
        writeBack env datesValues
          (historicalResponse,
           CallGetBucketUrl username :: CallGetPublicStories bucketUrl
             :: map (CallAggregatePath dateFrom dateGrouping) paths) in
      events ++ [Respond 200 (SeriesBody historicalResponse)]
  | _, _ =>
      let message := ("No profile or bucketUrl for " ++ username)%string in
      let errorId := captureMessage env message in
      [CallGetBucketUrl username;
       CallCaptureMessage message;
       Respond 500 (ErrorBody ("Internal server error: " ++ errorId)%string)]
  end.

(** The whole handler: the trace of one request, [None] only if the
    scaffold loop ran out of fuel (it does not, see
    [analyticsHistoricalEndpoint_total]). *)
Definition analyticsHistoricalEndpoint (env : Env)
    (query : AnalyticsHistoricalParams) : option (list Event) :=
  match validate query with
  | inl message => Some [Respond 400 (ErrorBody message)]
  | inr (dateFrom, parsedDateFrom, dateGrouping) =>
      let dateTo := now env in
      match scaffold parsedDateFrom dateTo with
      | None => None
      | Some historicalResponse =>
          Some (aggregate env query dateFrom dateGrouping historicalResponse)
      end
  end.

(** *** Observations on a run *)

(** The value of [historicalResponse] when the scaffold loop of the
    handler ends ([None] for a query that validation rejects). *)
Definition scaffolded (env : Env) (query : AnalyticsHistoricalParams)
  : option (list Bucket) :=
  match validate query with
  | inl _ => None
  | inr (_, parsedDateFrom, _) => scaffold parsedDateFrom (now env)
  end.

(** What [Promise.all] resolves to in the handler ([None] when the
    handler returns before the fetch). *)
Definition fathomAggregationResult (env : Env) (query : AnalyticsHistoricalParams)
  : option (list (list Fathom.AggregationRow)) :=
  match validate query with
  | inl _ => None
  | inr (dateFrom, _, dateGrouping) =>
      let resolved := getBucketUrl env query username in
      match profile resolved, bucketUrl resolved with
      | Some _, Some (String c u) =>
          Some (map (fun path => aggregatePath env dateFrom dateGrouping path)
                    (storiesPath (getPublicStories env (String c u))))
      | _, _ => None
      end
  end.

(** The [res.status(..).json(..)] calls of a trace. *)
Fixpoint responses (events : list Event) : list (Z * Body) :=
  match events with
  | [] => []
  | Respond status body :: rest => (status, body) :: responses rest
  | _ :: rest => responses rest
  end.

(** The user names [getBucketUrl] was called with. *)
Fixpoint resolvedUsernames (events : list Event) : list string :=
  match events with
  | [] => []
  | CallGetBucketUrl u :: rest => u :: resolvedUsernames rest
  | _ :: rest => resolvedUsernames rest
  end.

(** The paths [aggregatePath] was called with. *)
Fixpoint queriedPaths (events : list Event) : list string :=
  match events with
  | [] => []
  | CallAggregatePath _ _ path :: rest => path :: queriedPaths rest
  | _ :: rest => queriedPaths rest
  end.

(** The days the loop goes through from [d] until [dateTo]. *)
Inductive Covers (dateTo : DateTime) : DateTime -> list DateTime -> Prop :=
| covers_done d :
    isBefore d dateTo = false -> Covers dateTo d []
| covers_step d days :
    isBefore d dateTo = true ->
    Covers dateTo (nextDay d) days ->
    Covers dateTo d (d :: days).

(** The rows of all per-path results that carry [date'], in the order
    the merge meets them. *)
Definition rowsFor (date' : string) (results : list (list Fathom.AggregationRow))
  : list Fathom.AggregationRow :=
  filter (fun result => String.eqb (Fathom.date result) date') (List.concat results).

(** Summing with [+] from 0, left to right. *)
Definition sumNumbers (l : list JS.number) : JS.number :=
  fold_left JS.add l (JS.Num 0).

(** A provider row whose two counters parse to non-negative integers. *)
Definition rowIsNonNegative (result : Fathom.AggregationRow) : Prop :=
  JS.isNonNegativeInteger (JS.parseInt (Fathom.visits result))
  /\ JS.isNonNegativeInteger (JS.parseInt (Fathom.pageviews result)).

(** *** Notions used to state the properties of the stages *)

(** The totals a date starts from. *)
Definition zeroValues : DateValues := mkDateValues (JS.Num 0) (JS.Num 0).

(** What one provider row adds to the running totals of its date. *)
Definition addRow (v : DateValues) (result : Fathom.AggregationRow) : DateValues :=
  mkDateValues (JS.add (totalVisits v) (JS.parseInt (Fathom.visits result)))
               (JS.add (totalPageviews v) (JS.parseInt (Fathom.pageviews result))).

Definition orZero (v : option DateValues) : DateValues :=
  match v with Some x => x | None => zeroValues end.

(** Totals that are non-negative integers. *)
Definition nonNegativeTotals (entry : string * DateValues) : Prop :=
  JS.isNonNegativeInteger (totalVisits (snd entry))
  /\ JS.isNonNegativeInteger (totalPageviews (snd entry)).

(** What the callback may add to the trace. *)
Definition isErrorReport (e : Event) : bool :=
  match e with
  | CallCaptureMessage _ => true
  | Respond status (ErrorBody _) => status =? 500
  | _ => false
  end.

(** The calls that precede the write-back, in program order. *)
Definition fetchCalls (env : Env) (dateFrom' grouping u : string) : list Event :=
  CallGetBucketUrl username :: CallGetPublicStories u
    :: map (CallAggregatePath dateFrom' grouping) (storiesPath (getPublicStories env u)).

(** The trace of a run whose user cannot be resolved (lines 73-80). *)
Definition resolutionFailure (env : Env) : list Event :=
  [CallGetBucketUrl username;
   CallCaptureMessage ("No profile or bucketUrl for " ++ username)%string;
   Respond 500
     (ErrorBody ("Internal server error: "
                   ++ captureMessage env ("No profile or bucketUrl for " ++ username))%string)].

End Sigle.

(* ================================================================= *)
(** ** Sample requests *)

Module Samples.

Import DateFns Sigle.

Definition resolved : AnalyticsHistoricalParams -> string -> BucketUrlResult :=
  fun _ _ => mkBucketUrlResult (Some (mkProfile "sigleapp.id.blockstack"))
                               (Some "https://gaia.blockstack.org/hub/1/").

Definition dayQuery : AnalyticsHistoricalParams :=
  mkParams (Some "2024-01-01") (Some "day").

(** Two published stories; the provider has data for one of them, on
    2024-01-02; the request is served on 2024-01-04 at 10:00. *)
Definition twoStories : Env :=
  mkEnv (mkDateTime 2024 1 4 36000000)
        resolved
        (fun _ => [mkPublicStory "story-1"; mkPublicStory "story-2"])
        (fun _ _ path =>
           if String.eqb path "/sigleapp.id.blockstack/story-1"
           then [Fathom.mkRow "2024-01-02" "4" "7"] else [])
        (fun _ => "00000000000000000000000000000001").

(** One story; the story and the root page both have data for
    2024-01-01; the request is served on 2024-01-02 at 10:00. *)
Definition sameDayTwice : Env :=
  mkEnv (mkDateTime 2024 1 2 36000000)
        resolved
        (fun _ => [mkPublicStory "story-1"])
        (fun _ _ path =>
           if String.eqb path "/sigleapp.id.blockstack/story-1"
           then [Fathom.mkRow "2024-01-01" "3" "5"]
           else [Fathom.mkRow "2024-01-01" "2" "1"])
        (fun _ => "00000000000000000000000000000001").

(** No story; the provider answers for the root page with a row dated
    2024-01-03 and a row dated 2024-01-01, while the request is served on
    2024-01-02 at 10:00: the first date is not in the scaffold. *)
Definition dateOutsideScaffold : Env :=
  mkEnv (mkDateTime 2024 1 2 36000000)
        resolved
        (fun _ => [])
        (fun _ _ _ => [Fathom.mkRow "2024-01-03" "4" "7";
                       Fathom.mkRow "2024-01-01" "2" "1"])
        (fun _ => "00000000000000000000000000000001").

(** No story; the provider answers for the root page with a negative
    count and with a count that is not a number. *)
Definition oddCounts : Env :=
  mkEnv (mkDateTime 2024 1 2 36000000)
        resolved
        (fun _ => [])
        (fun _ _ _ => [Fathom.mkRow "2024-01-01" "-3" "n/a"])
        (fun _ => "00000000000000000000000000000001").

(** The request is served on 2023-12-31 at 10:00, before its
    [dateFrom]; the provider has nothing. *)
Definition servedEarlier : Env :=
  mkEnv (mkDateTime 2023 12 31 36000000)
        resolved
        (fun _ => [mkPublicStory "story-1"])
        (fun _ _ _ => [])
        (fun _ => "00000000000000000000000000000001").

End Samples.

(* ================================================================= *)
(** ** Notions for the whole trace of a run *)

(** A trace lists the calls the handler makes when each of them returns.
    A run in which a collaborator rejects, or in which the response object
    throws because a response was sent already, stops early and makes an
    initial part of these calls. *)

Module Trace.

Import DateFns Sigle.

(** What the write-back leaves in a bucket: the totals accumulated for
    its date, or the bucket as it was when there are none. *)
Definition mergedBucket (datesValues : Obj.t DateValues) (bucket : Bucket) : Bucket :=
  match Obj.get (date bucket) datesValues with
  | Some dateValues =>
      mkBucket (date bucket) (totalVisits dateValues) (totalPageviews dateValues)
  | None => bucket
  end.

(** Is there a bucket of that date in the series. *)
Definition hasDate (series : list Bucket) (date' : string) : bool :=
  existsb (fun historical => String.eqb (date historical) date') series.

(** The accumulated dates for which [findIndex] gives -1, in the order
    the write-back meets them. *)
Definition datesWithoutBucket (datesValues : Obj.t DateValues) (series : list Bucket)
  : list string :=
  filter (fun date' => negb (hasDate series date')) (Obj.keys datesValues).

(** What the callback does for such a date (lines 119-125). *)
Definition reportEvents (env : Env) (date' : string) : list Event :=
  let message :=
    ("No index for date " ++ date' ++ " and username " ++ username)%string in
  [CallCaptureMessage message;
   Respond 500 (ErrorBody ("Internal server error: " ++ captureMessage env message)%string)].

(** The local midnight that starts the day of an instant. *)
Definition startOfDay (d : DateTime) : DateTime :=
  mkDateTime (year d) (month d) (day d) 0.

Fixpoint allDigits (s : string) : bool :=
  match s with
  | String c rest =>
      match JS.digitValue c with
      | Some _ => allDigits rest
      | None => false
      end
  | EmptyString => true
  end.

(** A query that passes the four checks of the validation. *)
Definition wellFormed (query : AnalyticsHistoricalParams) : Prop :=
  exists s start grouping,
    dateFrom query = Some s /\ parse s = Some start
    /\ dateGrouping query = Some grouping
    /\ (grouping = "day" \/ grouping = "month").

(** The trace of a run that reaches the fetch, up to its last response:
    the calls, then the reports of the write-back. *)
Definition fetchTrace (env : Env) (dateFrom' grouping u : string)
    (datesValues : Obj.t DateValues) (scaffoldSeries : list Bucket) : list Event :=
  fetchCalls env dateFrom' grouping u
  ++ flat_map (reportEvents env) (datesWithoutBucket datesValues scaffoldSeries).

(** Traces in which every 500 response comes right after a report to
    the error reporter and carries the identifier of that report. *)
Inductive Reported (env : Env) : list Event -> Prop :=
| reported_nil : Reported env []
| reported_other e rest :
    (forall body, e <> Respond 500 body) ->
    Reported env rest -> Reported env (e :: rest)
| reported_error message rest :
    Reported env rest ->
    Reported env
      (CallCaptureMessage message
       :: Respond 500
            (ErrorBody ("Internal server error: " ++ captureMessage env message)%string)
       :: rest).

End Trace.

Module MoreSamples.

Import DateFns Sigle.

(** The profile lookup finds no profile. *)
Definition noProfile : Env :=
  mkEnv (mkDateTime 2024 1 2 36000000)
        (fun _ _ => mkBucketUrlResult None (Some "https://gaia.blockstack.org/hub/1/"))
        (fun _ => [mkPublicStory "story-1"])
        (fun _ _ _ => [Fathom.mkRow "2024-01-01" "3" "5"])
        (fun _ => "00000000000000000000000000000002").

(** The profile lookup gives an empty bucket URL. *)
Definition emptyBucketUrl : Env :=
  mkEnv (mkDateTime 2024 1 2 36000000)
        (fun _ _ => mkBucketUrlResult (Some (mkProfile "sigleapp.id.blockstack")) (Some ""))
        (fun _ => [mkPublicStory "story-1"])
        (fun _ _ _ => [Fathom.mkRow "2024-01-01" "3" "5"])
        (fun _ => "00000000000000000000000000000002").

(** Served on 2024-01-03 at local midnight exactly. *)
Definition atMidnight : Env :=
  mkEnv (mkDateTime 2024 1 3 0)
        Samples.resolved
        (fun _ => [])
        (fun _ _ _ => [])
        (fun _ => "00000000000000000000000000000002").

End MoreSamples.

(* ================================================================= *)
(** ** The scaffold in a time zone whose clocks change at midnight *)

Module Zoned.

Import DateFns Sigle.

(** The time zone of the process, as far as the loop can see it: for each
    calendar day (year, month, day of the month), how many milliseconds
    of its beginning the clocks skip.  It is 0 on a day that starts at
    00:00, and 3600000 on a day on which the clocks go from 00:00 to
    01:00.  Clock changes at other times of the day do not touch the
    times of day the loop holds; where the clocks are set back, a local
    time they repeat is taken in its first occurrence, so that instants
    are ordered as their local fields are. *)
Record TimeZone : Type := mkTimeZone {
  skipped : Z -> Z -> Z -> Z
}.

(** No day has its beginning skipped (as in UTC, and in every zone whose
    clocks change at another time than local midnight). *)
Definition startsEveryDayAtMidnight (zone : TimeZone) : Prop :=
  forall y m d, skipped zone y m d = 0.

(** The local time a [Date] holds when it is set to the fields of [d]: a
    time of day the clocks skip is moved forward by what they skip. *)
Definition resolve (zone : TimeZone) (d : DateTime) : DateTime :=
  let gap := skipped zone (year d) (month d) (day d) in
  if timeOfDay d <? gap
  then mkDateTime (year d) (month d) (day d) (timeOfDay d + gap)
  else d.

(** [parse(dateString, 'yyyy-MM-dd', new Date())]: the fields are set to
    local midnight of the day read, in the zone. *)
Definition parse (zone : TimeZone) (dateString : string) : option DateTime :=
  option_map (resolve zone) (DateFns.parse dateString).

(** [addDays(date, amount)]: every [setDate(getDate() + 1)] keeps the time
    of day and sets the fields in the zone. *)
Definition addDays (zone : TimeZone) (d : DateTime) (amount : nat) : DateTime :=
  Nat.iter amount (fun x => resolve zone (nextDay x)) d.

(** The [while] loop of lines 63-71 in the zone. *)
Fixpoint scaffoldLoop (zone : TimeZone) (fuel : nat)
    (parsedDateFrom dateTo : DateTime) (historicalResponse : list Bucket)
  : option (list Bucket) :=
  match fuel with
  | O => None
  | S fuel' =>
      if isBefore parsedDateFrom dateTo then
        scaffoldLoop zone fuel' (addDays zone parsedDateFrom 1) dateTo
          (historicalResponse
             ++ [mkBucket (format parsedDateFrom) (JS.Num 0) (JS.Num 0)])
      else Some historicalResponse
  end.

Definition scaffold (zone : TimeZone) (parsedDateFrom dateTo : DateTime)
  : option (list Bucket) :=
  scaffoldLoop zone (scaffoldFuel parsedDateFrom dateTo) parsedDateFrom dateTo [].

(** The value of [historicalResponse] when the loop of the handler ends,
    in the zone.  Whether [dateFrom] is valid does not depend on the
    zone: [parse zone] is an [Invalid Date] exactly when [DateFns.parse]
    is. *)
Definition scaffolded (zone : TimeZone) (env : Env) (query : AnalyticsHistoricalParams)
  : option (list Bucket) :=
  match validate query with
  | inl _ => None
  | inr (_, parsedDateFrom, _) =>
      scaffold zone (resolve zone parsedDateFrom) (now env)
  end.

(** A zone without skipped beginnings of days. *)
Definition utc : TimeZone := mkTimeZone (fun _ _ _ => 0).

(** A zone whose clocks go from 00:00 to 01:00 on 2024-03-10. *)
Definition midnightChange : TimeZone :=
  mkTimeZone (fun y m d =>
                if (y =? 2024) && (m =? 3) && (d =? 10) then 3600000 else 0).

(** Served on 2024-03-11 at 00:30 local time. *)
Definition halfPastMidnight : Env :=
  mkEnv (mkDateTime 2024 3 11 1800000)
        Samples.resolved
        (fun _ => [])
        (fun _ _ _ => [])
        (fun _ => "00000000000000000000000000000003").

End Zoned.

(* ================================================================= *)
(** ** The primitives on a few inputs *)

Example parseInt_3 : JS.parseInt "3" = JS.Num 3.
Proof. reflexivity. Qed.

Example parseInt_neg : JS.parseInt " -42px" = JS.Num (-42).
Proof. reflexivity. Qed.

Example parseInt_nan : JS.parseInt "abc" = JS.NaN.
Proof. reflexivity. Qed.

Example toString_2024 : JS.toString 2024 = "2024".
Proof. reflexivity. Qed.

Example toString_0 : JS.toString 0 = "0".
Proof. reflexivity. Qed.

Example parse_ok :
  DateFns.parse "2024-01-01" = Some (DateFns.mkDateTime 2024 1 1 0).
Proof. reflexivity. Qed.

Example parse_not_a_date : DateFns.parse "not-a-date" = None.
Proof. reflexivity. Qed.

Example parse_feb_30 : DateFns.parse "2023-02-29" = None.
Proof. reflexivity. Qed.

Example format_ok :
  DateFns.format (DateFns.mkDateTime 987 3 9 0) = "0987-03-09".
Proof. reflexivity. Qed.

Example nextDay_leap :
  DateFns.format (DateFns.addDays (DateFns.mkDateTime 2024 2 28 0) 2) = "2024-03-01".
Proof. reflexivity. Qed.

Example keys_order :
  Obj.keys [("2024-01-02", 1); ("7", 2); ("2024-01-01", 3); ("3", 4); ("03", 5)]
  = ["3"; "7"; "2024-01-02"; "2024-01-01"; "03"].
Proof. reflexivity. Qed.

(* ================================================================= *)
(** ** The calendar *)

Module CalendarFacts.

Import DateFns Sigle.

Lemma daysInMonth_bounds y m : 28 <= daysInMonth y m <= 31.
Proof.
  unfold daysInMonth.
  destruct (m =? 2); [destruct (isLeapYearIndex y); lia|].
  destruct ((m =? 4) || (m =? 6) || (m =? 9) || (m =? 11)); lia.
Qed.

(** [isBefore] is the strict lexicographic order of the fields. *)
Lemma isBefore_true a b :
  isBefore a b = true <->
  year a < year b \/
  (year a = year b /\
   (month a < month b \/
    (month a = month b /\
     (day a < day b \/ (day a = day b /\ timeOfDay a < timeOfDay b))))).
Proof.
  unfold isBefore, compareDate.
  destruct (Z.compare_spec (year a) (year b));
    destruct (Z.compare_spec (month a) (month b));
    destruct (Z.compare_spec (day a) (day b));
    destruct (Z.compare_spec (timeOfDay a) (timeOfDay b));
    split; intros; try discriminate; try reflexivity; lia.
Qed.

Lemma isBefore_false a b :
  isBefore a b = false <->
  year b < year a \/
  (year a = year b /\
   (month b < month a \/
    (month a = month b /\
     (day b < day a \/ (day a = day b /\ timeOfDay b <= timeOfDay a))))).
Proof.
  destruct (isBefore a b) eqn:E.
  - apply isBefore_true in E. split; [discriminate | lia].
  - split; [intros _ | reflexivity].
    assert (N : ~ isBefore a b = true) by (rewrite E; discriminate).
    rewrite isBefore_true in N. lia.
Qed.

Lemma nextDay_timeOfDay d : timeOfDay (nextDay d) = timeOfDay d.
Proof.
  unfold nextDay.
  destruct (day d <? daysInMonth (year d) (month d)); [reflexivity|].
  destruct (month d <? 12); reflexivity.
Qed.

Lemma nextDay_valid d : validDay d -> validDay (nextDay d).
Proof.
  unfold validDay, nextDay. intros [Hm Hd].
  destruct (Z.ltb_spec (day d) (daysInMonth (year d) (month d))); cbn [year month day timeOfDay].
  - lia.
  - destruct (Z.ltb_spec (month d) 12); cbn [year month day timeOfDay].
    + pose proof (daysInMonth_bounds (year d) (month d + 1)). lia.
    + pose proof (daysInMonth_bounds (year d + 1) 1). lia.
Qed.

Lemma nextDay_year d : year d <= year (nextDay d).
Proof.
  unfold nextDay.
  destruct (day d <? daysInMonth (year d) (month d)); cbn [year month day timeOfDay]; [lia|].
  destruct (month d <? 12); cbn [year month day timeOfDay]; lia.
Qed.

(** Every step of the loop moves to a day of higher rank. *)
Lemma nextDay_rank d : validDay d -> dayRank d < dayRank (nextDay d).
Proof.
  unfold validDay, nextDay, dayRank. intros [Hm Hd].
  pose proof (daysInMonth_bounds (year d) (month d)).
  destruct (Z.ltb_spec (day d) (daysInMonth (year d) (month d))); cbn [year month day timeOfDay].
  - lia.
  - destruct (Z.ltb_spec (month d) 12); cbn [year month day timeOfDay]; lia.
Qed.

(** On days of the calendar the rank orders as the calendar does. *)
Lemma dayRank_lt a b :
  validDay a -> validDay b ->
  (dayRank a < dayRank b <->
   year a < year b \/
   (year a = year b /\
    (month a < month b \/ (month a = month b /\ day a < day b)))).
Proof.
  unfold validDay, dayRank. intros [Ha Ha'] [Hb Hb'].
  pose proof (daysInMonth_bounds (year a) (month a)).
  pose proof (daysInMonth_bounds (year b) (month b)).
  nia.
Qed.

Lemma dayRank_inj a b :
  validDay a -> validDay b -> dayRank a = dayRank b ->
  year a = year b /\ month a = month b /\ day a = day b.
Proof.
  intros Ha Hb E.
  pose proof (dayRank_lt a b Ha Hb) as L1.
  pose proof (dayRank_lt b a Hb Ha) as L2.
  lia.
Qed.

(** No day of the calendar lies between a day and its [nextDay]. *)
Lemma nextDay_least d c :
  validDay d -> validDay c -> dayRank d < dayRank c ->
  dayRank (nextDay d) <= dayRank c.
Proof.
  intros Hd Hc L.
  pose proof (nextDay_valid d Hd) as Hn.
  destruct (Z.le_gt_cases (dayRank (nextDay d)) (dayRank c)) as [|G]; [assumption|].
  exfalso.
  apply (dayRank_lt d c Hd Hc) in L.
  apply (dayRank_lt c (nextDay d) Hc Hn) in G.
  unfold validDay in Hd, Hc. revert G. unfold nextDay.
  destruct (Z.ltb_spec (day d) (daysInMonth (year d) (month d)));
    cbn [year month day timeOfDay]; [lia|].
  assert (S : year c = year d /\ month c = month d -> False).
  { intros [Ey Em]. rewrite Ey, Em in Hc. lia. }
  destruct (Z.ltb_spec (month d) 12); cbn [year month day timeOfDay]; lia.
Qed.

End CalendarFacts.

(* ================================================================= *)
(** ** The scaffold loop *)

Module ScaffoldFacts.

Import DateFns Sigle CalendarFacts.

Lemma addDays_one d : addDays d 1 = nextDay d.
Proof. reflexivity. Qed.

Lemma addDays_succ d n : addDays (nextDay d) n = addDays d (S n).
Proof.
  unfold addDays. induction n as [|n IH]; [reflexivity|].
  simpl in *. now rewrite IH.
Qed.

(** A day that is before [dateTo] has a rank below the bound that
    [scaffoldFuel] starts from. *)
Lemma isBefore_rank_bound d dateTo :
  validDay d -> isBefore d dateTo = true ->
  dayRank d <= (12 * year dateTo + 12) * 31 + 31.
Proof.
  intros [Hm Hd] B. apply isBefore_true in B.
  pose proof (daysInMonth_bounds (year d) (month d)).
  unfold dayRank. nia.
Qed.

(** With enough fuel the loop ends, having appended one zero bucket for
    each day it went through. *)
Lemma scaffoldLoop_covers dateTo fuel :
  forall d historicalResponse,
    validDay d ->
    Z.max 1 ((12 * year dateTo + 12) * 31 + 33 - dayRank d) <= Z.of_nat fuel ->
    exists days,
      scaffoldLoop fuel d dateTo historicalResponse
        = Some (historicalResponse ++ map zeroBucket days)
      /\ Covers dateTo d days.
Proof.
  induction fuel as [|fuel IH]; intros d acc Hv Hf.
  - lia.
  - cbn [scaffoldLoop]. destruct (isBefore d dateTo) eqn:B.
    + pose proof (isBefore_rank_bound d dateTo Hv B) as Hb.
      pose proof (nextDay_rank d Hv) as Hr.
      destruct (IH (nextDay d) (acc ++ [zeroBucket d]) (nextDay_valid d Hv))
        as [days [E C]]; [lia|].
      exists (d :: days). split.
      * rewrite addDays_one, E, <- app_assoc. reflexivity.
      * now constructor.
    + exists []. split; [now rewrite app_nil_r | now constructor].
Qed.

Lemma scaffold_covers d dateTo :
  validDay d ->
  exists days,
    scaffold d dateTo = Some (map zeroBucket days) /\ Covers dateTo d days.
Proof.
  intros Hv. unfold scaffold.
  destruct (scaffoldLoop_covers dateTo (scaffoldFuel d dateTo) d [] Hv)
    as [days [E C]].
  - unfold scaffoldFuel. lia.
  - exists days. now split.
Qed.

Lemma Covers_deterministic dateTo d l1 :
  Covers dateTo d l1 -> forall l2, Covers dateTo d l2 -> l1 = l2.
Proof.
  induction 1 as [d B | d days B C IH]; intros l2 C2; inversion C2; subst;
    try congruence.
  f_equal. now apply IH.
Qed.

(** The days are consecutive: the i-th one is [addDays d i]. *)
Lemma Covers_consecutive dateTo d days :
  Covers dateTo d days ->
  days = map (addDays d) (seq 0 (List.length days)).
Proof.
  induction 1 as [d B | d days B C IH]; [reflexivity|].
  cbn [List.length seq map]. f_equal.
  rewrite <- seq_shift, map_map.
  rewrite IH at 1. apply map_ext. intros n. apply addDays_succ.
Qed.

Lemma Covers_sound dateTo d days :
  Covers dateTo d days -> validDay d ->
  forall c, In c days ->
    validDay c /\ timeOfDay c = timeOfDay d
    /\ dayRank d <= dayRank c /\ isBefore c dateTo = true.
Proof.
  induction 1 as [d B | d days B C IH]; intros Hv c I; [destruct I|].
  destruct I as [E|I].
  - subst c. repeat split; try assumption; try apply Hv. lia.
  - destruct (IH (nextDay_valid d Hv) c I) as [V [T [R L]]].
    pose proof (nextDay_rank d Hv). rewrite nextDay_timeOfDay in T.
    repeat split; try assumption; try apply V. lia.
Qed.

Lemma sameDay_eq a b :
  year a = year b -> month a = month b -> day a = day b ->
  timeOfDay a = timeOfDay b -> a = b.
Proof. destruct a, b; simpl; intros; subst; reflexivity. Qed.

Lemma Covers_complete dateTo d days :
  Covers dateTo d days -> validDay d ->
  forall c, validDay c -> timeOfDay c = timeOfDay d ->
    dayRank d <= dayRank c -> isBefore c dateTo = true -> In c days.
Proof.
  induction 1 as [d B | d days B C IH]; intros Hv c Hc T R L.
  - exfalso. apply isBefore_false in B. apply isBefore_true in L.
    destruct (Z.eq_dec (dayRank d) (dayRank c)) as [E|N].
    + apply (dayRank_inj d c Hv Hc) in E. lia.
    + assert (R' : dayRank d < dayRank c) by lia.
      apply (dayRank_lt d c Hv Hc) in R'. lia.
  - destruct (Z.eq_dec (dayRank d) (dayRank c)) as [E|N].
    + left. apply (dayRank_inj d c Hv Hc) in E.
      apply sameDay_eq; intuition congruence.
    + right. apply (IH (nextDay_valid d Hv) c Hc).
      * now rewrite nextDay_timeOfDay.
      * apply nextDay_least; [assumption..|lia].
      * assumption.
Qed.

(** The days come in strictly ascending chronological order. *)
Lemma Covers_sorted dateTo d days :
  Covers dateTo d days -> validDay d ->
  StronglySorted (fun a b => isBefore a b = true) days.
Proof.
  induction 1 as [d B | d days B C IH]; intros Hv; constructor.
  - apply IH, nextDay_valid, Hv.
  - apply Forall_forall. intros c I.
    destruct (Covers_sound _ _ _ C (nextDay_valid d Hv) c I) as [V [T [R L]]].
    pose proof (nextDay_rank d Hv) as Hr.
    assert (R' : dayRank d < dayRank c) by lia.
    apply (dayRank_lt d c Hv V) in R'.
    apply isBefore_true. lia.
Qed.

(** For days of the calendar at the same time of day, "not before" is
    "of the same or a higher rank". *)
Lemma notBefore_rank start c :
  validDay start -> validDay c -> timeOfDay c = timeOfDay start ->
  (isBefore c start = false <-> dayRank start <= dayRank c).
Proof.
  intros Hs Hc T. rewrite isBefore_false.
  pose proof (dayRank_lt start c Hs Hc) as L1.
  pose proof (dayRank_lt c start Hc Hs) as L2.
  pose proof (dayRank_inj start c Hs Hc) as L3.
  lia.
Qed.

(** Whatever the fuel, a loop that ends has gone through the days up to
    [dateTo]. *)
Lemma scaffoldLoop_sound dateTo fuel :
  forall d historicalResponse series,
    scaffoldLoop fuel d dateTo historicalResponse = Some series ->
    exists days,
      series = historicalResponse ++ map zeroBucket days /\ Covers dateTo d days.
Proof.
  induction fuel as [|fuel IH]; intros d acc series E; [discriminate|].
  cbn [scaffoldLoop] in E. destruct (isBefore d dateTo) eqn:B.
  - rewrite addDays_one in E. destruct (IH _ _ _ E) as [days [-> C]].
    exists (d :: days). split; [now rewrite <- app_assoc | now constructor].
  - injection E as <-. exists []. split; [now rewrite app_nil_r | now constructor].
Qed.

End ScaffoldFacts.

(* ================================================================= *)
(** ** Formatted dates *)

Module FormatFacts.

Import DateFns Sigle CalendarFacts ScaffoldFacts.

Lemma string_length_append s t :
  String.length (s ++ t)%string = (String.length s + String.length t)%nat.
Proof. induction s as [|c s IH]; simpl; [reflexivity | now rewrite IH]. Qed.

(** Two concatenations with tails of one length agree part by part. *)
Lemma append_eq_split s1 : forall s2 t1 t2,
  String.length t1 = String.length t2 ->
  (s1 ++ t1)%string = (s2 ++ t2)%string -> s1 = s2 /\ t1 = t2.
Proof.
  induction s1 as [|c s1 IH]; intros [|c2 s2] t1 t2 L E; simpl in E.
  - now split.
  - exfalso. subst t1. simpl in L. rewrite string_length_append in L. lia.
  - exfalso. subst t2. simpl in L. rewrite string_length_append in L. lia.
  - injection E as -> E. destruct (IH s2 t1 t2 L E) as [-> ->]. now split.
Qed.

Lemma readDecimal_padded k n :
  JS.readDecimal (JS.repeat0 k ++ JS.toString n)%string = Some n.
Proof.
  unfold JS.readDecimal, JS.toString. induction k as [|k IH].
  - simpl. rewrite NilEmpty.usu. simpl. now rewrite Unsigned.of_to.
  - cbn [JS.repeat0 String.append NilEmpty.uint_of_string].
    destruct (NilEmpty.uint_of_string
                (JS.repeat0 k ++ NilEmpty.string_of_uint (N.to_uint n))%string)
      as [u|]; [|discriminate].
    simpl in *. exact IH.
Qed.

Lemma addLeadingZeros_nonneg n w :
  0 <= n ->
  addLeadingZeros n w
  = (JS.repeat0 (w - String.length (JS.toString (Z.to_N n))) ++ JS.toString (Z.to_N n))%string.
Proof.
  intros H. unfold addLeadingZeros.
  rewrite Z.abs_eq by assumption.
  destruct (Z.ltb_spec n 0); [lia | reflexivity].
Qed.

Lemma addLeadingZeros_inj a b w :
  0 <= a -> 0 <= b -> addLeadingZeros a w = addLeadingZeros b w -> a = b.
Proof.
  intros Ha Hb E.
  rewrite !addLeadingZeros_nonneg in E by assumption.
  apply (f_equal JS.readDecimal) in E.
  rewrite !readDecimal_padded in E. injection E as E. lia.
Qed.

Lemma twoDigits_table :
  forallb (fun n => Nat.eqb (String.length (addLeadingZeros (Z.of_nat n) 2)) 2)
          (seq 0 100) = true.
Proof. vm_compute. reflexivity. Qed.

Lemma addLeadingZeros_two n :
  0 <= n < 100 -> String.length (addLeadingZeros n 2) = 2%nat.
Proof.
  intros H. pose proof twoDigits_table as T.
  rewrite forallb_forall in T.
  specialize (T (Z.to_nat n)).
  rewrite Z2Nat.id in T by lia.
  apply Nat.eqb_eq, T, in_seq. lia.
Qed.

(** [format] tells the days of the calendar (of a year above 0) apart. *)
Lemma format_inj a b :
  validDay a -> validDay b -> 0 < year a -> 0 < year b ->
  format a = format b ->
  year a = year b /\ month a = month b /\ day a = day b.
Proof.
  intros [Ha Ha'] [Hb Hb'] Ya Yb E. unfold format in E.
  pose proof (daysInMonth_bounds (year a) (month a)).
  pose proof (daysInMonth_bounds (year b) (month b)).
  destruct (Z.ltb_spec 0 (year a)); [|lia].
  destruct (Z.ltb_spec 0 (year b)); [|lia].
  assert (La : String.length (addLeadingZeros (month a) 2) = 2%nat)
    by (apply addLeadingZeros_two; lia).
  assert (Lb : String.length (addLeadingZeros (month b) 2) = 2%nat)
    by (apply addLeadingZeros_two; lia).
  assert (Da : String.length (addLeadingZeros (day a) 2) = 2%nat)
    by (apply addLeadingZeros_two; lia).
  assert (Db : String.length (addLeadingZeros (day b) 2) = 2%nat)
    by (apply addLeadingZeros_two; lia).
  apply append_eq_split in E.
  - destruct E as [Ey E]. injection E as E.
    apply append_eq_split in E.
    + destruct E as [Em E]. injection E as Ed.
      apply addLeadingZeros_inj in Ey; [|lia..].
      apply addLeadingZeros_inj in Em; [|lia..].
      apply addLeadingZeros_inj in Ed; [|lia..].
      auto.
    + simpl. now rewrite Da, Db.
  - simpl. rewrite !string_length_append. simpl. now rewrite La, Lb, Da, Db.
Qed.

(** No two buckets of the scaffold carry the same date string. *)
Lemma Covers_format_NoDup dateTo d days :
  Covers dateTo d days -> validDay d -> 0 < year d ->
  NoDup (map format days).
Proof.
  induction 1 as [d B | d days B C IH]; intros Hv Hy; simpl; constructor.
  - intros I. apply in_map_iff in I. destruct I as [c [E I]].
    pose proof (nextDay_valid d Hv) as Hn.
    destruct (Covers_sound _ _ _ C Hn c I) as [V [T [R L]]].
    pose proof (nextDay_rank d Hv) as Hr.
    assert (R' : dayRank d < dayRank c) by lia.
    pose proof R' as R''. apply (dayRank_lt d c Hv V) in R''.
    apply format_inj in E; [|assumption|assumption|lia|assumption].
    unfold dayRank in R'. lia.
  - apply IH; [now apply nextDay_valid|].
    pose proof (nextDay_year d). lia.
Qed.

(** What [parse] accepts is a day of the calendar, at local midnight, in
    a year above 0. *)
Lemma parse_valid s d :
  parse s = Some d -> validDay d /\ timeOfDay d = 0 /\ 0 < year d.
Proof.
  unfold parse.
  destruct (takeDigits 4 s None) as [[y|] [|c1 s1]]; try discriminate.
  destruct (Ascii.eqb_spec c1 "-"); [subst c1|].
  2:{ destruct c1 as [[] [] [] [] [] [] [] []]; try discriminate. congruence. }
  destruct (takeDigits 2 s1 None) as [[m|] [|c2 s2]]; try discriminate.
  destruct (Ascii.eqb_spec c2 "-"); [subst c2|].
  2:{ destruct c2 as [[] [] [] [] [] [] [] []]; try discriminate. congruence. }
  destruct (takeDigits 2 s2 None) as [[dd|] rest]; try discriminate.
  destruct (allWhiteSpace rest && (0 <? y) && (1 <=? m) && (m <=? 12)
            && (1 <=? dd) && (dd <=? daysInMonth y m)) eqn:G; [|discriminate].
  intros [= <-]. repeat rewrite andb_true_iff in G.
  unfold validDay. cbn [year month day timeOfDay]. lia.
Qed.

Lemma parse_nonempty s d : parse s = Some d -> s <> EmptyString.
Proof. intros P ->. discriminate. Qed.

End FormatFacts.

(* ================================================================= *)
(** ** Objects as maps *)

Module ObjFacts.

Section WithValues.
Context {V : Type}.
Implicit Types (o : Obj.t V) (k : string) (v : V).

Lemma get_update k k' f o :
  Obj.get k (Obj.update k' f o)
  = if String.eqb k' k then option_map f (Obj.get k o) else Obj.get k o.
Proof.
  induction o as [|[k0 v0] o IH]; simpl.
  - now destruct (String.eqb k' k).
  - destruct (String.eqb_spec k0 k') as [->|N0]; simpl.
    + destruct (String.eqb_spec k' k) as [->|N]; simpl; [reflexivity|].
      reflexivity.
    + destruct (String.eqb_spec k0 k) as [->|N]; simpl.
      * destruct (String.eqb_spec k' k); [congruence | reflexivity].
      * exact IH.
Qed.

Lemma get_app k o o' :
  Obj.get k (o ++ o')
  = match Obj.get k o with Some v => Some v | None => Obj.get k o' end.
Proof.
  induction o as [|[k0 v0] o IH]; simpl; [reflexivity|].
  now destruct (String.eqb k0 k).
Qed.

Lemma get_set k k' v o :
  Obj.get k (Obj.set k' v o) = if String.eqb k' k then Some v else Obj.get k o.
Proof.
  unfold Obj.set. destruct (Obj.get k' o) as [v0|] eqn:G.
  - rewrite get_update. destruct (String.eqb_spec k' k) as [->|N]; [|reflexivity].
    now rewrite G.
  - rewrite get_app. simpl.
    destruct (String.eqb_spec k' k) as [->|N]; [now rewrite G|].
    now destruct (Obj.get k o).
Qed.

Lemma In_get k v o : In (k, v) o -> exists v', Obj.get k o = Some v'.
Proof.
  induction o as [|[k0 v0] o IH]; simpl; [tauto|].
  intros [E|I].
  - injection E as -> ->. rewrite String.eqb_refl. eauto.
  - destruct (String.eqb k0 k); eauto.
Qed.

Lemma Forall_update (P : string * V -> Prop) k f o :
  (forall v, P (k, v) -> P (k, f v)) ->
  Forall P o -> Forall P (Obj.update k f o).
Proof.
  intros Hf. induction 1 as [|[k0 v0] o H0 H IH]; simpl; [constructor|].
  destruct (String.eqb_spec k0 k) as [->|N]; constructor; auto.
Qed.

Lemma Forall_set (P : string * V -> Prop) k v o :
  P (k, v) -> Forall P o -> Forall P (Obj.set k v o).
Proof.
  intros Hv H. unfold Obj.set. destruct (Obj.get k o).
  - apply Forall_update; auto.
  - apply Forall_app. split; [assumption | now constructor].
Qed.

Lemma In_insertByIndex x i e (l : list (Z * (string * V))) :
  In x (Obj.insertByIndex i e l) -> x = (i, e) \/ In x l.
Proof.
  induction l as [|[j e'] l IH]; simpl.
  - intros [<-|[]]. now left.
  - destruct (i <=? j); simpl.
    + intros [<-|[<-|I]]; auto.
    + intros [<-|I]; auto. destruct (IH I); auto.
Qed.

Lemma In_indexEntries x o : In x (Obj.indexEntries o) -> In (snd x) o.
Proof.
  induction o as [|e o IH]; simpl; [tauto|].
  destruct (Obj.arrayIndex (fst e)); [|now auto].
  intros I. apply In_insertByIndex in I. destruct I as [->|I]; auto.
Qed.

(** Enumeration lists own properties only. *)
Lemma In_entries e o : In e (Obj.entries o) -> In e o.
Proof.
  unfold Obj.entries. intros I. apply in_app_or in I. destruct I as [I|I].
  - apply in_map_iff in I. destruct I as [x [<- I]]. now apply In_indexEntries.
  - apply filter_In in I. tauto.
Qed.

Lemma In_keys k o : In k (Obj.keys o) -> exists v, Obj.get k o = Some v.
Proof.
  unfold Obj.keys. intros I. apply in_map_iff in I.
  destruct I as [[k0 v] [E I]]. simpl in E. subst k0.
  apply In_entries in I. eapply In_get, I.
Qed.

End WithValues.
End ObjFacts.

(* ================================================================= *)
(** ** The merge *)

Module MergeFacts.

Import Sigle ObjFacts.

Lemma get_accumulate d o result :
  Obj.get d (accumulate o result)
  = if String.eqb (Fathom.date result) d
    then Some (addRow (orZero (Obj.get d o)) result)
    else Obj.get d o.
Proof.
  unfold accumulate. rewrite !get_update.
  destruct (String.eqb_spec (Fathom.date result) d) as [E|N].
  - rewrite E. destruct (Obj.get d o) as [v|] eqn:G.
    + rewrite G. reflexivity.
    + rewrite get_set, String.eqb_refl. reflexivity.
  - destruct (Obj.get (Fathom.date result) o); [reflexivity|].
    rewrite get_set. destruct (String.eqb_spec (Fathom.date result) d); congruence.
Qed.

Lemma merge_concat results :
  merge results = fold_left accumulate (List.concat results) [].
Proof.
  unfold merge. generalize (@nil (string * DateValues)) as o.
  induction results as [|r results IH]; intros o; simpl; [reflexivity|].
  now rewrite fold_left_app, IH.
Qed.

Lemma get_fold_accumulate d rows : forall o,
  Obj.get d (fold_left accumulate rows o)
  = match filter (fun result => String.eqb (Fathom.date result) d) rows with
    | [] => Obj.get d o
    | r :: rs => Some (fold_left addRow (r :: rs) (orZero (Obj.get d o)))
    end.
Proof.
  induction rows as [|r rows IH]; intros o; simpl; [reflexivity|].
  rewrite IH, get_accumulate.
  destruct (String.eqb (Fathom.date r) d); simpl.
  - now destruct (filter _ rows).
  - reflexivity.
Qed.

Lemma fold_addRow rows : forall v,
  fold_left addRow rows v
  = mkDateValues
      (fold_left JS.add
         (map (fun result => JS.parseInt (Fathom.visits result)) rows) (totalVisits v))
      (fold_left JS.add
         (map (fun result => JS.parseInt (Fathom.pageviews result)) rows) (totalPageviews v)).
Proof.
  induction rows as [|r rows IH]; intros v; simpl; [now destruct v|].
  now rewrite IH.
Qed.

(** The total kept for a date is the sum over the rows of that date. *)
Lemma get_merge d results :
  Obj.get d (merge results)
  = match rowsFor d results with
    | [] => None
    | rows =>
        Some (mkDateValues
                (sumNumbers (map (fun result => JS.parseInt (Fathom.visits result)) rows))
                (sumNumbers (map (fun result => JS.parseInt (Fathom.pageviews result)) rows)))
    end.
Proof.
  rewrite merge_concat, get_fold_accumulate. unfold rowsFor.
  destruct (filter _ (List.concat results)) as [|r rs]; [reflexivity|].
  now rewrite fold_addRow.
Qed.

Lemma rowsFor_nil d results :
  rowsFor d results = [] <-> ~ In d (map Fathom.date (List.concat results)).
Proof.
  unfold rowsFor. split.
  - intros E I. apply in_map_iff in I. destruct I as [r [<- I]].
    assert (I' : In r (filter (fun result => String.eqb (Fathom.date result) (Fathom.date r))
                              (List.concat results))).
    { apply filter_In. split; [assumption | apply String.eqb_refl]. }
    rewrite E in I'. destruct I'.
  - intros N. destruct (filter _ (List.concat results)) as [|r rs] eqn:E; [reflexivity|].
    exfalso. apply N. assert (I : In r (r :: rs)) by now left.
    rewrite <- E in I. apply filter_In in I. destruct I as [I Q].
    apply String.eqb_eq in Q. subst d. now apply in_map.
Qed.

(** Only dates of provider rows are accumulated. *)
Lemma keys_merge_provided d results :
  In d (Obj.keys (merge results)) -> In d (map Fathom.date (List.concat results)).
Proof.
  intros I. apply In_keys in I. destruct I as [v G].
  rewrite get_merge in G.
  destruct (in_dec string_dec d (map Fathom.date (List.concat results))) as [|N];
    [assumption|].
  apply rowsFor_nil in N. rewrite N in G. discriminate.
Qed.

Lemma add_nonNegative a b :
  JS.isNonNegativeInteger a -> JS.isNonNegativeInteger b ->
  JS.isNonNegativeInteger (JS.add a b).
Proof. destruct a, b; simpl; try tauto. lia. Qed.

Lemma accumulate_nonNegative o result :
  rowIsNonNegative result ->
  Forall nonNegativeTotals o -> Forall nonNegativeTotals (accumulate o result).
Proof.
  intros [Hv Hp] F. unfold accumulate.
  apply Forall_update.
  { intros v [H1 H2]. split; simpl in *; [assumption | now apply add_nonNegative]. }
  apply Forall_update.
  { intros v [H1 H2]. split; simpl in *; [now apply add_nonNegative | assumption]. }
  destruct (Obj.get (Fathom.date result) o); [assumption|].
  apply Forall_set; [|assumption]. split; simpl; lia.
Qed.

Lemma merge_nonNegative results :
  Forall (Forall rowIsNonNegative) results ->
  Forall nonNegativeTotals (merge results).
Proof.
  intros H. rewrite merge_concat.
  assert (R : Forall rowIsNonNegative (List.concat results)).
  { induction H as [|r rs Hr _ IH]; simpl; [constructor|].
    apply Forall_app. now split. }
  clear H. generalize (@nil (string * DateValues)) (@Forall_nil _ nonNegativeTotals).
  induction R as [|r rows Hr _ IH]; intros o F; simpl; [assumption|].
  apply IH. now apply accumulate_nonNegative.
Qed.

End MergeFacts.

(* ================================================================= *)
(** ** The write-back *)

Module WriteBackFacts.

Import DateFns Sigle ObjFacts MergeFacts.

Lemma findIndex_Some {A} (p : A -> bool) l : forall i,
  JS.findIndex p l = Some i -> exists x, nth_error l i = Some x /\ p x = true.
Proof.
  induction l as [|x l IH]; simpl; intros i E; [discriminate|].
  destruct (p x) eqn:P.
  - injection E as <-. exists x. now split.
  - destruct (JS.findIndex p l) as [j|]; [|discriminate].
    injection E as <-. apply (IH j eq_refl).
Qed.

Lemma nth_error_updateAt_other {A} (f : A -> A) l : forall i j,
  i <> j -> nth_error (JS.updateAt j f l) i = nth_error l i.
Proof.
  induction l as [|x l IH]; intros [|i] [|j] N; simpl; try reflexivity;
    try congruence.
  apply IH. congruence.
Qed.

Lemma map_updateAt {A B} (g : A -> B) (f : A -> A) l : forall j,
  (forall x, g (f x) = g x) -> map g (JS.updateAt j f l) = map g l.
Proof.
  induction l as [|x l IH]; intros [|j] H; simpl; try reflexivity.
  - now rewrite H.
  - now rewrite IH.
Qed.

Lemma Forall_updateAt {A} (P : A -> Prop) (f : A -> A) l : forall j,
  (forall x, P x -> P (f x)) -> Forall P l -> Forall P (JS.updateAt j f l).
Proof.
  induction l as [|x l IH]; intros [|j] H F; simpl; inversion F; subst;
    constructor; auto.
Qed.

Section Step.
Variable env : Env.

Lemma step_dates hist events entry :
  map date (fst (writeBackStep env (hist, events) entry)) = map date hist.
Proof.
  destruct entry as [k v]. cbn [writeBackStep].
  destruct (JS.findIndex _ hist); cbn [fst]; [|reflexivity].
  rewrite !map_updateAt; reflexivity.
Qed.

Lemma step_frame hist events entry i b :
  nth_error hist i = Some b -> date b <> fst entry ->
  nth_error (fst (writeBackStep env (hist, events) entry)) i = Some b.
Proof.
  destruct entry as [k v]. cbn [writeBackStep fst]. intros E N.
  destruct (JS.findIndex _ hist) as [j|] eqn:F; cbn [fst]; [|assumption].
  apply findIndex_Some in F. destruct F as [x [Ex Px]].
  apply String.eqb_eq in Px.
  assert (i <> j) by (intros ->; congruence).
  rewrite !nth_error_updateAt_other; assumption.
Qed.

Lemma step_Forall (P : Bucket -> Prop) hist events entry :
  (forall b, P b -> P (mkBucket (date b) (totalVisits (snd entry)) (pageviews b))) ->
  (forall b, P b -> P (mkBucket (date b) (visits b) (totalPageviews (snd entry)))) ->
  Forall P hist -> Forall P (fst (writeBackStep env (hist, events) entry)).
Proof.
  destruct entry as [k v]. cbn [writeBackStep snd]. intros H1 H2 F.
  destruct (JS.findIndex _ hist); cbn [fst]; [|assumption].
  apply Forall_updateAt; [assumption|]. apply Forall_updateAt; assumption.
Qed.

Lemma step_events hist events entry :
  exists reports,
    snd (writeBackStep env (hist, events) entry) = events ++ reports
    /\ forallb isErrorReport reports = true.
Proof.
  destruct entry as [k v]. cbn [writeBackStep].
  destruct (JS.findIndex _ hist); cbn [snd].
  - exists []. now rewrite app_nil_r.
  - eexists. split; reflexivity.
Qed.

(** The iteration over any list of entries. *)
Lemma fold_dates entries : forall state,
  map date (fst (fold_left (writeBackStep env) entries state)) = map date (fst state).
Proof.
  induction entries as [|e entries IH]; intros [hist events]; cbn [fold_left];
    [reflexivity|].
  rewrite IH. apply step_dates.
Qed.

Lemma fold_frame entries : forall state i b,
  nth_error (fst state) i = Some b -> ~ In (date b) (map fst entries) ->
  nth_error (fst (fold_left (writeBackStep env) entries state)) i = Some b.
Proof.
  induction entries as [|e entries IH]; intros [hist events] i b E N;
    cbn [fold_left]; [assumption|].
  simpl in N. apply IH; [|tauto].
  apply step_frame; [assumption|]. intros Q. apply N. left. now symmetry.
Qed.

Lemma fold_Forall (P : Bucket -> Prop) entries : forall state,
  Forall (fun entry =>
            (forall b, P b -> P (mkBucket (date b) (totalVisits (snd entry)) (pageviews b)))
            /\ (forall b, P b -> P (mkBucket (date b) (visits b) (totalPageviews (snd entry)))))
         entries ->
  Forall P (fst state) ->
  Forall P (fst (fold_left (writeBackStep env) entries state)).
Proof.
  induction entries as [|e entries IH]; intros [hist events] He F;
    cbn [fold_left]; [assumption|].
  inversion He as [|? ? [H1 H2] He']; subst.
  apply IH; [assumption|].
  now apply step_Forall.
Qed.

Lemma fold_events entries : forall state,
  exists reports,
    snd (fold_left (writeBackStep env) entries state) = snd state ++ reports
    /\ forallb isErrorReport reports = true.
Proof.
  induction entries as [|e entries IH]; intros [hist events]; cbn [fold_left snd].
  - exists []. now rewrite app_nil_r.
  - destruct (step_events hist events e) as [r1 [E1 F1]].
    destruct (IH (writeBackStep env (hist, events) e)) as [r2 [E2 F2]].
    exists (r1 ++ r2). split.
    + rewrite E2, E1. now rewrite app_assoc.
    + rewrite forallb_app, F1, F2. reflexivity.
Qed.

(** A bucket whose date is not an accumulated date is left alone. *)
Lemma writeBack_keeps datesValues hist events index bucket :
  nth_error hist index = Some bucket ->
  ~ In (date bucket) (Obj.keys datesValues) ->
  nth_error (fst (writeBack env datesValues (hist, events))) index = Some bucket.
Proof. intros E N. unfold writeBack. now apply fold_frame. Qed.

End Step.

Lemma responses_app a b : responses (a ++ b) = responses a ++ responses b.
Proof.
  induction a as [|e a IH]; simpl; [reflexivity|].
  destruct e; simpl; now rewrite ?IH.
Qed.

Lemma queriedPaths_app a b : queriedPaths (a ++ b) = queriedPaths a ++ queriedPaths b.
Proof.
  induction a as [|e a IH]; simpl; [reflexivity|].
  destruct e; simpl; now rewrite ?IH.
Qed.

Lemma resolvedUsernames_app a b :
  resolvedUsernames (a ++ b) = resolvedUsernames a ++ resolvedUsernames b.
Proof.
  induction a as [|e a IH]; simpl; [reflexivity|].
  destruct e; simpl; now rewrite ?IH.
Qed.

Lemma reports_no_calls reports :
  forallb isErrorReport reports = true ->
  queriedPaths reports = [] /\ resolvedUsernames reports = []
  /\ Forall (fun r => fst r = 500 /\ exists error, snd r = ErrorBody error)
            (responses reports).
Proof.
  induction reports as [|e reports IH]; simpl; [intros _; repeat split; constructor|].
  intros H. apply andb_true_iff in H. destruct H as [He H].
  destruct (IH H) as [Q [U R]].
  destruct e; simpl in He; try discriminate; simpl; [tauto|].
  destruct body; try discriminate. apply Z.eqb_eq in He. subst status.
  repeat split; try assumption. constructor; [|assumption].
  simpl. split; [reflexivity | eauto].
Qed.

Lemma queriedPaths_calls dateFrom dateGrouping paths :
  queriedPaths (map (CallAggregatePath dateFrom dateGrouping) paths) = paths.
Proof. induction paths as [|p paths IH]; simpl; [reflexivity | now rewrite IH]. Qed.

Lemma resolvedUsernames_calls dateFrom dateGrouping paths :
  resolvedUsernames (map (CallAggregatePath dateFrom dateGrouping) paths) = [].
Proof. induction paths as [|p paths IH]; simpl; [reflexivity | exact IH]. Qed.

Lemma responses_calls dateFrom dateGrouping paths :
  responses (map (CallAggregatePath dateFrom dateGrouping) paths) = [].
Proof. induction paths as [|p paths IH]; simpl; [reflexivity | exact IH]. Qed.

End WriteBackFacts.

(* ================================================================= *)
(** ** Runs of the handler *)

Module RunFacts.

Import DateFns Sigle CalendarFacts ScaffoldFacts FormatFacts MergeFacts WriteBackFacts.

Lemma validate_inr query dateFrom' start grouping :
  validate query = inr (dateFrom', start, grouping) ->
  dateFrom query = Some dateFrom' /\ parse dateFrom' = Some start
  /\ dateGrouping query = Some grouping
  /\ (grouping = "day" \/ grouping = "month").
Proof.
  unfold validate.
  destruct (dateFrom query) as [[|c s]|]; try discriminate.
  destruct (parse (String c s)) as [d|] eqn:P; try discriminate.
  destruct (dateGrouping query) as [[|c' g]|]; try discriminate.
  destruct (String.eqb_spec (String c' g) "day") as [E1|N1];
    destruct (String.eqb_spec (String c' g) "month") as [E2|N2];
    simpl; try discriminate; intros [= <- <- <-]; repeat split; auto.
Qed.

(** Every request runs in one of three ways: it is rejected by the
    validation, the resolution of the user fails, or the scaffold is
    written back to and sent. *)
Lemma run_cases env query :
  match validate query with
  | inl message =>
      analyticsHistoricalEndpoint env query = Some [Respond 400 (ErrorBody message)]
  | inr (dateFrom', start, grouping) =>
      exists days,
        Covers (now env) start days
        /\ scaffolded env query = Some (map zeroBucket days)
        /\ match fathomAggregationResult env query with
           | None =>
               analyticsHistoricalEndpoint env query = Some (resolutionFailure env)
           | Some results =>
               exists u,
                 bucketUrl (getBucketUrl env query username) = Some u
                 /\ results = map (aggregatePath env dateFrom' grouping)
                                  (storiesPath (getPublicStories env u))
                 /\ analyticsHistoricalEndpoint env query
                    = Some (snd (writeBack env (merge results)
                                   (map zeroBucket days,
                                    fetchCalls env dateFrom' grouping u))
                            ++ [Respond 200
                                  (SeriesBody
                                     (fst (writeBack env (merge results)
                                             (map zeroBucket days,
                                              fetchCalls env dateFrom' grouping u))))])
           end
  end.
Proof.
  unfold analyticsHistoricalEndpoint, scaffolded, fathomAggregationResult.
  destruct (validate query) as [message | [[dateFrom' start] grouping]] eqn:V;
    [reflexivity|].
  destruct (validate_inr _ _ _ _ V) as [_ [P _]].
  destruct (parse_valid _ _ P) as [Hv _].
  destruct (scaffold_covers start (now env) Hv) as [days [E C]].
  exists days. rewrite E. split; [assumption|]. split; [reflexivity|].
  unfold aggregate.
  destruct (profile (getBucketUrl env query username)) as [p|];
    [|reflexivity].
  destruct (bucketUrl (getBucketUrl env query username)) as [[|c u]|];
    [reflexivity| |reflexivity].
  exists (String c u). split; [reflexivity|]. split; [reflexivity|].
  unfold fetchCalls.
  destruct (writeBack env _ _) as [hist events]. reflexivity.
Qed.

(** The handler always returns. *)
Lemma analyticsHistoricalEndpoint_total env query :
  exists events, analyticsHistoricalEndpoint env query = Some events.
Proof.
  pose proof (run_cases env query) as R.
  destruct (validate query) as [message | [[dateFrom' start] grouping]]; [eauto|].
  destruct R as [days [_ [_ R]]].
  destruct (fathomAggregationResult env query); [|eauto].
  destruct R as [u [_ [_ R]]]. eauto.
Qed.

(** The responses of a run that reaches the write-back: error reports,
    then the series. *)
Lemma responses_writeBack env datesValues hist dateFrom' grouping u :
  exists reports,
    let state := writeBack env datesValues (hist, fetchCalls env dateFrom' grouping u) in
    snd state = fetchCalls env dateFrom' grouping u ++ reports
    /\ forallb isErrorReport reports = true
    /\ responses (snd state ++ [Respond 200 (SeriesBody (fst state))])
       = responses reports ++ [(200, SeriesBody (fst state))].
Proof.
  unfold writeBack.
  destruct (fold_events env (Obj.entries datesValues)
              (hist, fetchCalls env dateFrom' grouping u)) as [reports [E F]].
  cbn [snd] in E.
  exists reports. cbn zeta. split; [exact E|]. split; [exact F|].
  rewrite E, !responses_app. unfold fetchCalls. cbn [responses].
  rewrite responses_calls. reflexivity.
Qed.

(** A series sent with status 200 is the scaffold after the write-back. *)
Lemma sent_series env query events series :
  analyticsHistoricalEndpoint env query = Some events ->
  In (200, SeriesBody series) (responses events) ->
  exists dateFrom' start grouping days results u,
    validate query = inr (dateFrom', start, grouping)
    /\ Covers (now env) start days
    /\ scaffolded env query = Some (map zeroBucket days)
    /\ fathomAggregationResult env query = Some results
    /\ series = fst (writeBack env (merge results)
                       (map zeroBucket days, fetchCalls env dateFrom' grouping u)).
Proof.
  intros E I. pose proof (run_cases env query) as R.
  destruct (validate query) as [message | [[dateFrom' start] grouping]].
  - rewrite E in R. injection R as ->. simpl in I.
    destruct I as [I|[]]. discriminate.
  - destruct R as [days [C [S R]]].
    destruct (fathomAggregationResult env query) as [results|].
    + destruct R as [u [_ [_ R]]]. rewrite E in R. injection R as ->.
      destruct (responses_writeBack env (merge results) (map zeroBucket days)
                  dateFrom' grouping u) as [reports [_ [F Q]]].
      cbn zeta in Q. rewrite Q in I. apply in_app_or in I.
      destruct I as [I|I].
      * apply reports_no_calls in F. destruct F as [_ [_ F]].
        rewrite Forall_forall in F. destruct (F _ I) as [_ [error B]].
        discriminate.
      * destruct I as [I|[]]. injection I as <-.
        exists dateFrom', start, grouping, days, results, u. auto.
    + rewrite E in R. injection R as ->. simpl in I.
      destruct I as [I|[]]. discriminate.
Qed.

End RunFacts.

(* ================================================================= *)
(** ** The scaffold in a zone that skips no beginning of a day *)

Module ZonedFacts.

Import DateFns Sigle.

Lemma resolve_id zone d :
  Zoned.startsEveryDayAtMidnight zone -> Zoned.resolve zone d = d.
Proof.
  intros H. unfold Zoned.resolve. rewrite H. cbn zeta.
  destruct (timeOfDay d <? 0); [|reflexivity].
  destruct d as [y m dd t]. cbn [year month day timeOfDay]. f_equal. lia.
Qed.

Lemma zoned_addDays_one zone d :
  Zoned.startsEveryDayAtMidnight zone -> Zoned.addDays zone d 1 = addDays d 1.
Proof. intros H. unfold Zoned.addDays, addDays. simpl. now apply resolve_id. Qed.

Lemma scaffoldLoop_eq zone dateTo fuel :
  Zoned.startsEveryDayAtMidnight zone ->
  forall d historicalResponse,
    Zoned.scaffoldLoop zone fuel d dateTo historicalResponse
    = scaffoldLoop fuel d dateTo historicalResponse.
Proof.
  intros H. induction fuel as [|fuel IH]; intros d acc; [reflexivity|].
  cbn [Zoned.scaffoldLoop scaffoldLoop].
  destruct (isBefore d dateTo); [|reflexivity].
  rewrite zoned_addDays_one by assumption. apply IH.
Qed.

(** In such a zone the loop is the loop on a time line without clock
    changes. *)
Lemma scaffolded_eq zone env query :
  Zoned.startsEveryDayAtMidnight zone ->
  Zoned.scaffolded zone env query = scaffolded env query.
Proof.
  intros H. unfold Zoned.scaffolded, scaffolded.
  destruct (validate query) as [|[[s start] g]]; [reflexivity|].
  rewrite resolve_id by assumption.
  unfold Zoned.scaffold, scaffold. now apply scaffoldLoop_eq.
Qed.

Lemma utc_startsEveryDayAtMidnight : Zoned.startsEveryDayAtMidnight Zoned.utc.
Proof. intros y m d. reflexivity. Qed.

End ZonedFacts.

(* ================================================================= *)
(** ** Properties of the endpoint *)

Module Endpoint.

Import DateFns Sigle CalendarFacts ScaffoldFacts FormatFacts ObjFacts MergeFacts
       WriteBackFacts RunFacts.

(** *** Validation *)

(** C4.  The validation checks run in this order and the first one that
    fails ends the request with status 400 and a body [{ error }], nothing
    else being done: a missing (absent or empty) [dateFrom] gives
    "dateFrom is required"; a [dateFrom] that [parse] rejects gives
    "dateFrom is invalid"; then a missing [dateGrouping] gives
    "dateGrouping is required"; then a [dateGrouping] other than "day" and
    "month" gives "dateGrouping must be day or month". *)
Theorem validation_order (env : Env) (query : AnalyticsHistoricalParams) :
  (JS.truthy (dateFrom query) = false ->
   analyticsHistoricalEndpoint env query
   = Some [Respond 400 (ErrorBody "dateFrom is required")])
  /\ (forall s,
        dateFrom query = Some s -> JS.truthy (Some s) = true ->
        parse s = None ->
        analyticsHistoricalEndpoint env query
        = Some [Respond 400 (ErrorBody "dateFrom is invalid")])
  /\ (forall s start,
        dateFrom query = Some s -> parse s = Some start ->
        JS.truthy (dateGrouping query) = false ->
        analyticsHistoricalEndpoint env query
        = Some [Respond 400 (ErrorBody "dateGrouping is required")])
  /\ (forall s start g,
        dateFrom query = Some s -> parse s = Some start ->
        dateGrouping query = Some g -> JS.truthy (Some g) = true ->
        g <> "day" -> g <> "month" ->
        analyticsHistoricalEndpoint env query
        = Some [Respond 400 (ErrorBody "dateGrouping must be day or month")]).
Proof.
  unfold analyticsHistoricalEndpoint, validate. repeat split.
  - intros T. destruct (dateFrom query) as [[|c s]|]; try reflexivity.
    discriminate.
  - intros s E T P. rewrite E. destruct s as [|c s]; [discriminate|].
    now rewrite P.
  - intros s start E P T. rewrite E.
    destruct s as [|c s]; [discriminate|]. rewrite P.
    destruct (dateGrouping query) as [[|c' g]|]; try reflexivity. discriminate.
  - intros s start g E P G T N1 N2. rewrite E.
    destruct s as [|c s]; [discriminate|]. rewrite P, G.
    destruct g as [|c' g]; [discriminate|].
    destruct (String.eqb_spec (String c' g) "day"); [contradiction|].
    destruct (String.eqb_spec (String c' g) "month"); [contradiction|].
    reflexivity.
Qed.

Lemma validation_order_witness :
  analyticsHistoricalEndpoint Samples.twoStories (mkParams None (Some "week"))
  = Some [Respond 400 (ErrorBody "dateFrom is required")]
  /\ analyticsHistoricalEndpoint Samples.twoStories (mkParams (Some "not-a-date") None)
     = Some [Respond 400 (ErrorBody "dateFrom is invalid")]
  /\ analyticsHistoricalEndpoint Samples.twoStories (mkParams (Some "2024-01-01") None)
     = Some [Respond 400 (ErrorBody "dateGrouping is required")]
  /\ analyticsHistoricalEndpoint Samples.twoStories
       (mkParams (Some "2024-01-01") (Some "week"))
     = Some [Respond 400 (ErrorBody "dateGrouping must be day or month")].
Proof.
  split; [|split; [|split]].
  - apply (proj1 (validation_order Samples.twoStories (mkParams None (Some "week")))).
    reflexivity.
  - apply (proj1 (proj2 (validation_order Samples.twoStories
                           (mkParams (Some "not-a-date") None)))
             "not-a-date"); reflexivity.
  - apply (proj1 (proj2 (proj2 (validation_order Samples.twoStories
                                  (mkParams (Some "2024-01-01") None))))
             "2024-01-01" (mkDateTime 2024 1 1 0)); reflexivity.
  - apply (proj2 (proj2 (proj2 (validation_order Samples.twoStories
                                  (mkParams (Some "2024-01-01") (Some "week")))))
             "2024-01-01" (mkDateTime 2024 1 1 0) "week");
      try reflexivity; discriminate.
Defined.

(** *** The path list *)

(** C8.  Whoever sends the request, the user resolved is
    'sigleapp.id.blockstack', and when the handler reaches the fetch the
    paths it queries are '/sigleapp.id.blockstack/<storyId>' for each
    published story, in their order, followed by '/sigleapp.id.blockstack'
    last: the published-story count plus one.  A handler that returns
    before the fetch queries no path. *)
Theorem aggregation_paths (env : Env) (query : AnalyticsHistoricalParams) :
  exists events,
    analyticsHistoricalEndpoint env query = Some events
    /\ Forall (fun u => u = "sigleapp.id.blockstack") (resolvedUsernames events)
    /\ match fathomAggregationResult env query with
       | Some _ =>
           exists u,
             bucketUrl (getBucketUrl env query "sigleapp.id.blockstack") = Some u
             /\ resolvedUsernames events = ["sigleapp.id.blockstack"]
             /\ queriedPaths events
                = map (fun story => ("/sigleapp.id.blockstack/" ++ id story)%string)
                      (getPublicStories env u)
                  ++ ["/sigleapp.id.blockstack"]
             /\ List.length (queriedPaths events)
                = S (List.length (getPublicStories env u))
       | None => queriedPaths events = []
       end.
Proof.
  pose proof (run_cases env query) as R.
  destruct (validate query) as [message | [[dateFrom' start] grouping]] eqn:V.
  - exists [Respond 400 (ErrorBody message)]. split; [assumption|].
    split; [constructor|].
    unfold fathomAggregationResult. now rewrite V.
  - destruct R as [days [_ [_ R]]].
    destruct (fathomAggregationResult env query) as [results|].
    + destruct R as [u [B [_ R]]]. eexists. split; [exact R|].
      destruct (responses_writeBack env (merge results) (map zeroBucket days)
                  dateFrom' grouping u) as [reports [E [F _]]].
      cbn zeta in E. apply reports_no_calls in F. destruct F as [Q [U _]].
      assert (EU : resolvedUsernames
                     (snd (writeBack env (merge results)
                             (map zeroBucket days, fetchCalls env dateFrom' grouping u))
                      ++ [Respond 200
                            (SeriesBody
                               (fst (writeBack env (merge results)
                                       (map zeroBucket days,
                                        fetchCalls env dateFrom' grouping u))))])
                   = ["sigleapp.id.blockstack"]).
      { rewrite E, !resolvedUsernames_app, U. unfold fetchCalls.
        cbn [resolvedUsernames]. now rewrite resolvedUsernames_calls. }
      assert (EQ : queriedPaths
                     (snd (writeBack env (merge results)
                             (map zeroBucket days, fetchCalls env dateFrom' grouping u))
                      ++ [Respond 200
                            (SeriesBody
                               (fst (writeBack env (merge results)
                                       (map zeroBucket days,
                                        fetchCalls env dateFrom' grouping u))))])
                   = storiesPath (getPublicStories env u)).
      { rewrite E, !queriedPaths_app, Q. unfold fetchCalls.
        cbn [queriedPaths]. rewrite queriedPaths_calls. now rewrite !app_nil_r. }
      split; [rewrite EU; repeat constructor|].
      exists u. split; [exact B|]. split; [exact EU|]. rewrite EQ.
      split; [reflexivity|].
      unfold storiesPath. rewrite length_app, length_map. simpl. lia.
    + exists (resolutionFailure env). split; [assumption|].
      split; [repeat constructor | reflexivity].
Qed.

(** *** The scaffold *)

(** C2, as the code has it.  In a time zone that skips no beginning of
    a day (no clock change at local midnight), for a [dateFrom] that
    parses and a grouping of "day" or "month", the series the handler has
    after its loop holds one bucket for each calendar day whose midnight
    is not before [dateFrom] and is before now, and nothing else: the
    dates are those of consecutive days from [dateFrom], in strictly
    ascending order, they differ pairwise, every bucket has [visits] 0 and
    [pageviews] 0, and the series is the same for both groupings. *)
Theorem scaffold_one_bucket_per_day
    (zone : Zoned.TimeZone) (env : Env)
    (dateFrom' grouping : string) (start : DateTime) :
  Zoned.startsEveryDayAtMidnight zone ->
  Zoned.parse zone dateFrom' = Some start ->
  grouping = "day" \/ grouping = "month" ->
  exists days series,
    Zoned.scaffolded zone env (mkParams (Some dateFrom') (Some grouping))
    = Some series
    /\ Zoned.scaffolded zone env (mkParams (Some dateFrom') (Some "day"))
       = Zoned.scaffolded zone env (mkParams (Some dateFrom') (Some "month"))
    /\ map date series = map format days
    /\ Forall (fun bucket =>
                 visits bucket = JS.Num 0 /\ pageviews bucket = JS.Num 0) series
    /\ Forall (fun c => validDay c /\ timeOfDay c = 0) days
    /\ (forall c, validDay c -> timeOfDay c = 0 ->
                  (In c days <->
                   isBefore c start = false /\ isBefore c (now env) = true))
    /\ days = map (addDays start) (seq 0 (List.length days))
    /\ StronglySorted (fun a b => isBefore a b = true) days
    /\ NoDup (map date series).
Proof.
  intros Z P G.
  assert (P' : parse dateFrom' = Some start).
  { unfold Zoned.parse in P. destruct (parse dateFrom') as [d|]; [|discriminate].
    simpl in P. rewrite ZonedFacts.resolve_id in P by assumption. exact P. }
  clear P. rename P' into P.
  destruct (parse_valid _ _ P) as [Hv [T Y]].
  destruct (scaffold_covers start (now env) Hv) as [days [E C]].
  assert (S : forall g, g = "day" \/ g = "month" ->
                        Zoned.scaffolded zone env (mkParams (Some dateFrom') (Some g))
                        = Some (map zeroBucket days)).
  { intros g Hg. rewrite ZonedFacts.scaffolded_eq by assumption.
    unfold scaffolded, validate. cbn [dateFrom dateGrouping].
    destruct dateFrom' as [|c s]; [discriminate|]. rewrite P.
    destruct Hg as [-> | ->]; exact E. }
  assert (D : map date (map zeroBucket days) = map format days).
  { rewrite map_map. reflexivity. }
  exists days, (map zeroBucket days). split; [now apply S|].
  split; [rewrite !S by auto; reflexivity|].
  split; [exact D|].
  split.
  { apply Forall_forall. intros b I. apply in_map_iff in I.
    destruct I as [c [<- _]]. split; reflexivity. }
  split.
  { apply Forall_forall. intros c I.
    destruct (Covers_sound _ _ _ C Hv c I) as [V [T' _]]. split; [assumption|lia]. }
  split.
  { intros c Hc Tc. rewrite notBefore_rank by (assumption || lia). split.
    - intros I. destruct (Covers_sound _ _ _ C Hv c I) as [_ [_ [R L]]]. now split.
    - intros [R L]. apply (Covers_complete _ _ _ C Hv); (assumption || lia). }
  split; [now apply Covers_consecutive with (dateTo := now env)|].
  split; [now apply Covers_sorted with (dateTo := now env) (d := start)|].
  rewrite D.
  now apply Covers_format_NoDup with (dateTo := now env) (d := start).
Qed.

Lemma scaffold_one_bucket_per_day_witness :
  exists days series,
    Zoned.scaffolded Zoned.utc Samples.twoStories
      (mkParams (Some "2024-01-01") (Some "month"))
    = Some series
    /\ Zoned.scaffolded Zoned.utc Samples.twoStories
         (mkParams (Some "2024-01-01") (Some "day"))
       = Zoned.scaffolded Zoned.utc Samples.twoStories
           (mkParams (Some "2024-01-01") (Some "month"))
    /\ map date series = map format days
    /\ Forall (fun bucket =>
                 visits bucket = JS.Num 0 /\ pageviews bucket = JS.Num 0) series
    /\ Forall (fun c => validDay c /\ timeOfDay c = 0) days
    /\ (forall c, validDay c -> timeOfDay c = 0 ->
                  (In c days <->
                   isBefore c (mkDateTime 2024 1 1 0) = false
                   /\ isBefore c (now Samples.twoStories) = true))
    /\ days = map (addDays (mkDateTime 2024 1 1 0)) (seq 0 (List.length days))
    /\ StronglySorted (fun a b => isBefore a b = true) days
    /\ NoDup (map date series).
Proof.
  apply (scaffold_one_bucket_per_day Zoned.utc Samples.twoStories "2024-01-01" "month"
           (mkDateTime 2024 1 1 0)).
  - intros y m d. reflexivity.
  - reflexivity.
  - right. reflexivity.
Defined.

(** C2 without that proviso fails.  In a zone whose clocks go from 00:00
    to 01:00 on 2024-03-10, [dateFrom] "2024-03-10" is parsed to 01:00 of
    that day and [addDays] keeps that time of day; served on 2024-03-11 at
    00:30, the loop stops before 2024-03-11 01:00: the calendar day
    2024-03-11, whose midnight is after [dateFrom] and before now, has no
    bucket. *)
Lemma scaffold_misses_a_day_after_midnight_change :
  Zoned.parse Zoned.midnightChange "2024-03-10"
  = Some (mkDateTime 2024 3 10 3600000)
  /\ Zoned.scaffolded Zoned.midnightChange Zoned.halfPastMidnight
       (mkParams (Some "2024-03-10") (Some "day"))
     = Some [mkBucket "2024-03-10" (JS.Num 0) (JS.Num 0)]
  /\ validDay (mkDateTime 2024 3 11 0)
  /\ isBefore (mkDateTime 2024 3 11 0) (mkDateTime 2024 3 10 3600000) = false
  /\ isBefore (mkDateTime 2024 3 11 0) (now Zoned.halfPastMidnight) = true
  /\ ~ In (format (mkDateTime 2024 3 11 0))
          (map date [mkBucket "2024-03-10" (JS.Num 0) (JS.Num 0)]).
Proof.
  split; [reflexivity|]. split; [reflexivity|].
  split; [unfold validDay; cbn; repeat split; discriminate|].
  split; [reflexivity|]. split; [reflexivity|].
  simpl. intros [H|[]]. discriminate.
Qed.

(** C9.  The scaffold depends on [dateFrom] and on the frozen now only:
    two runs that agree on both have the same series after the loop,
    whatever else differs (grouping, collaborators, provider data), and the
    loop gives the same series with any fuel that lets it end. *)
Theorem scaffold_deterministic :
  (forall env1 env2 query1 query2 series1 series2,
      dateFrom query1 = dateFrom query2 ->
      now env1 = now env2 ->
      scaffolded env1 query1 = Some series1 ->
      scaffolded env2 query2 = Some series2 ->
      series1 = series2)
  /\ (forall start dateTo fuel1 fuel2 series1 series2,
        scaffoldLoop fuel1 start dateTo [] = Some series1 ->
        scaffoldLoop fuel2 start dateTo [] = Some series2 ->
        series1 = series2)
  /\ (forall start dateTo,
        validDay start ->
        exists series,
          forall fuel, (scaffoldFuel start dateTo <= fuel)%nat ->
                       scaffoldLoop fuel start dateTo [] = Some series).
Proof.
  split; [|split].
  - intros env1 env2 q1 q2 s1 s2 D N. unfold scaffolded.
    destruct (validate q1) as [|[[d1 p1] g1]] eqn:V1; [discriminate|].
    destruct (validate q2) as [|[[d2 p2] g2]] eqn:V2; [discriminate|].
    apply validate_inr in V1. apply validate_inr in V2.
    destruct V1 as [E1 [P1 _]]. destruct V2 as [E2 [P2 _]].
    assert (d1 = d2) by congruence. subst d2.
    assert (p1 = p2) by congruence. subst p2.
    rewrite N. congruence.
  - intros start dateTo f1 f2 s1 s2 E1 E2.
    apply scaffoldLoop_sound in E1. apply scaffoldLoop_sound in E2.
    destruct E1 as [l1 [-> C1]]. destruct E2 as [l2 [-> C2]].
    now rewrite (Covers_deterministic _ _ _ C1 _ C2).
  - intros start dateTo Hv.
    destruct (scaffold_covers start dateTo Hv) as [days [_ C]].
    exists (map zeroBucket days). intros fuel Hf.
    destruct (scaffoldLoop_covers dateTo fuel start [] Hv) as [days' [E C']].
    + unfold scaffoldFuel in Hf. lia.
    + rewrite E. simpl. now rewrite (Covers_deterministic _ _ _ C _ C').
Qed.

Lemma scaffold_deterministic_witness :
  (exists series1 series2,
      scaffolded Samples.sameDayTwice (mkParams (Some "2024-01-01") (Some "day"))
      = Some series1
      /\ scaffolded Samples.oddCounts (mkParams (Some "2024-01-01") (Some "month"))
         = Some series2
      /\ series1 = series2)
  /\ [zeroBucket (mkDateTime 2024 1 1 0); zeroBucket (mkDateTime 2024 1 2 0)]
     = [zeroBucket (mkDateTime 2024 1 1 0); zeroBucket (mkDateTime 2024 1 2 0)]
  /\ exists series,
       forall fuel,
         (scaffoldFuel (mkDateTime 2024 1 1 0) (mkDateTime 2024 1 2 36000000) <= fuel)%nat ->
         scaffoldLoop fuel (mkDateTime 2024 1 1 0) (mkDateTime 2024 1 2 36000000) []
         = Some series.
Proof.
  split.
  - eexists. eexists. split; [reflexivity|]. split; [reflexivity|].
    apply (proj1 scaffold_deterministic Samples.sameDayTwice Samples.oddCounts
             (mkParams (Some "2024-01-01") (Some "day"))
             (mkParams (Some "2024-01-01") (Some "month"))); reflexivity.
  - split.
    + apply (proj1 (proj2 scaffold_deterministic)
               (mkDateTime 2024 1 1 0) (mkDateTime 2024 1 2 36000000) 3%nat 7%nat);
        reflexivity.
    + apply (proj2 (proj2 scaffold_deterministic)).
      unfold validDay. cbn. repeat split; discriminate.
Defined.

(** C10.  When [dateFrom] parses to a day that is not before now, the
    loop leaves the series empty; and when, in addition, the handler
    reaches the fetch and every per-path result is empty, its only
    response is status 200 with the empty array. *)
Theorem dateFrom_not_before_now
    (env : Env) (query : AnalyticsHistoricalParams) (s : string) (start : DateTime) :
  dateFrom query = Some s ->
  parse s = Some start ->
  isBefore start (now env) = false ->
  scaffold start (now env) = Some []
  /\ (forall results,
        fathomAggregationResult env query = Some results ->
        Forall (fun aggregationResult => aggregationResult = []) results ->
        scaffolded env query = Some []
        /\ exists events,
             analyticsHistoricalEndpoint env query = Some events
             /\ responses events = [(200, SeriesBody [])]).
Proof.
  intros D P B. split.
  - unfold scaffold. destruct (scaffoldFuel start (now env)) as [|fuel] eqn:F.
    + unfold scaffoldFuel in F. lia.
    + cbn [scaffoldLoop]. now rewrite B.
  - intros results A Hempty.
    pose proof (run_cases env query) as R.
    destruct (validate query) as [message | [[dateFrom' start'] grouping]] eqn:V.
    { unfold fathomAggregationResult in A. rewrite V in A. discriminate. }
    destruct (validate_inr _ _ _ _ V) as [D' [P' _]].
    assert (dateFrom' = s) by congruence. subst dateFrom'.
    assert (start' = start) by congruence. subst start'.
    destruct R as [days [C [S R]]].
    inversion C; subst; [|congruence].
    split; [exact S|].
    rewrite A in R. destruct R as [u [_ [_ R]]].
    assert (M : merge results = []).
    { rewrite merge_concat.
      assert (Q : List.concat results = []).
      { clear - Hempty. induction Hempty as [|r rs Hr _ IH]; [reflexivity|].
        subst r. exact IH. }
      now rewrite Q. }
    rewrite M in R. eexists. split; [exact R|].
    unfold writeBack.
    change (Obj.entries (@nil (string * DateValues))) with (@nil (string * DateValues)).
    cbn [fold_left fst snd]. rewrite responses_app. unfold fetchCalls.
    cbn [responses]. now rewrite responses_calls.
Qed.

Lemma dateFrom_not_before_now_witness :
  scaffold (mkDateTime 2024 1 1 0) (now Samples.servedEarlier) = Some []
  /\ exists events,
       analyticsHistoricalEndpoint Samples.servedEarlier Samples.dayQuery = Some events
       /\ responses events = [(200, SeriesBody [])].
Proof.
  destruct (dateFrom_not_before_now Samples.servedEarlier Samples.dayQuery
              "2024-01-01" (mkDateTime 2024 1 1 0)
              eq_refl eq_refl eq_refl) as [E H].
  split; [exact E|].
  apply (H [[]; []]); [reflexivity|].
  repeat constructor.
Defined.

(** *** The merge *)

(** C3.  For every date that appears in some per-path result, the merge
    holds the sum, from 0 and in the order of the results, of the parsed
    [visits] of the rows of that date, and likewise of their
    [pageviews]; two results that both have 2024-01-01, with (3, 5) and
    with (2, 1), merge to (5, 6). *)
Theorem merge_sums_by_date :
  (forall results d,
      In d (map Fathom.date (List.concat results)) ->
      Obj.get d (merge results)
      = Some (mkDateValues
                (sumNumbers (map (fun result => JS.parseInt (Fathom.visits result))
                                 (rowsFor d results)))
                (sumNumbers (map (fun result => JS.parseInt (Fathom.pageviews result))
                                 (rowsFor d results)))))
  /\ Obj.get "2024-01-01"
       (merge [[Fathom.mkRow "2024-01-01" "3" "5"];
               [Fathom.mkRow "2024-01-01" "2" "1"]])
     = Some (mkDateValues (JS.Num 5) (JS.Num 6)).
Proof.
  split; [|reflexivity].
  intros results d I. rewrite get_merge.
  destruct (rowsFor d results) as [|r rs] eqn:E; [|reflexivity].
  apply rowsFor_nil in E. contradiction.
Qed.

Lemma merge_sums_by_date_witness :
  Obj.get "2024-01-02"
    (merge [[Fathom.mkRow "2024-01-01" "3" "5"; Fathom.mkRow "2024-01-02" "4" "7"];
            [];
            [Fathom.mkRow "2024-01-02" "10" "20"]])
  = Some (mkDateValues (JS.Num 14) (JS.Num 27)).
Proof.
  apply (proj1 merge_sums_by_date
           [[Fathom.mkRow "2024-01-01" "3" "5"; Fathom.mkRow "2024-01-02" "4" "7"];
            [];
            [Fathom.mkRow "2024-01-02" "10" "20"]]
           "2024-01-02").
  simpl. right. left. reflexivity.
Defined.

(** *** The write-back *)

(** C7.  The write-back changes nothing but the [visits] and [pageviews]
    of buckets whose date is an accumulated date: the dates of the series,
    in their order (hence its length), are those before it, and a bucket
    whose date is not accumulated is left as it was; so the series sent
    with status 200 has the dates of the scaffold, in the order of the
    scaffold. *)
Theorem writeBack_frame :
  (forall env datesValues historicalResponse events,
      let after := fst (writeBack env datesValues (historicalResponse, events)) in
      map date after = map date historicalResponse
      /\ List.length after = List.length historicalResponse
      /\ forall index bucket,
           nth_error historicalResponse index = Some bucket ->
           ~ In (date bucket) (Obj.keys datesValues) ->
           nth_error after index = Some bucket)
  /\ (forall env query events series,
        analyticsHistoricalEndpoint env query = Some events ->
        In (200, SeriesBody series) (responses events) ->
        exists scaffoldSeries,
          scaffolded env query = Some scaffoldSeries
          /\ map date series = map date scaffoldSeries).
Proof.
  split.
  - intros env datesValues hist events after. subst after. unfold writeBack.
    pose proof (fold_dates env (Obj.entries datesValues) (hist, events)) as D.
    cbn [fst] in D. split; [exact D|]. split.
    + rewrite <- (length_map date), D. apply length_map.
    + intros index bucket E N. now apply writeBack_keeps.
  - intros env query events series E I.
    destruct (sent_series env query events series E I)
      as [dateFrom' [start [grouping [days [results [u [_ [_ [S [_ ->]]]]]]]]]].
    eexists. split; [exact S|]. unfold writeBack.
    now rewrite fold_dates.
Qed.

Lemma writeBack_frame_witness :
  (let after :=
     fst (writeBack Samples.twoStories
            [("2024-01-02", mkDateValues (JS.Num 4) (JS.Num 7))]
            ([mkBucket "2024-01-01" (JS.Num 0) (JS.Num 0);
              mkBucket "2024-01-02" (JS.Num 0) (JS.Num 0)], [])) in
   nth_error after 0 = Some (mkBucket "2024-01-01" (JS.Num 0) (JS.Num 0)))
  /\ exists scaffoldSeries,
       scaffolded Samples.twoStories Samples.dayQuery = Some scaffoldSeries
       /\ map date [mkBucket "2024-01-01" (JS.Num 0) (JS.Num 0);
                    mkBucket "2024-01-02" (JS.Num 4) (JS.Num 7);
                    mkBucket "2024-01-03" (JS.Num 0) (JS.Num 0);
                    mkBucket "2024-01-04" (JS.Num 0) (JS.Num 0)]
          = map date scaffoldSeries.
Proof.
  split.
  - apply (proj2 (proj2 (proj1 writeBack_frame Samples.twoStories
                           [("2024-01-02", mkDateValues (JS.Num 4) (JS.Num 7))]
                           [mkBucket "2024-01-01" (JS.Num 0) (JS.Num 0);
                            mkBucket "2024-01-02" (JS.Num 0) (JS.Num 0)] []))).
    + reflexivity.
    + simpl. intros [H|[]]. discriminate.
  - apply (proj2 writeBack_frame Samples.twoStories Samples.dayQuery
             [CallGetBucketUrl "sigleapp.id.blockstack";
              CallGetPublicStories "https://gaia.blockstack.org/hub/1/";
              CallAggregatePath "2024-01-01" "day" "/sigleapp.id.blockstack/story-1";
              CallAggregatePath "2024-01-01" "day" "/sigleapp.id.blockstack/story-2";
              CallAggregatePath "2024-01-01" "day" "/sigleapp.id.blockstack";
              Respond 200
                (SeriesBody
                   [mkBucket "2024-01-01" (JS.Num 0) (JS.Num 0);
                    mkBucket "2024-01-02" (JS.Num 4) (JS.Num 7);
                    mkBucket "2024-01-03" (JS.Num 0) (JS.Num 0);
                    mkBucket "2024-01-04" (JS.Num 0) (JS.Num 0)])]).
    + reflexivity.
    + simpl. left. reflexivity.
Defined.

(** C6.  In a series sent with status 200, the bucket of every day of
    the scaffold whose date no per-path result contains is the one the
    scaffold made, at the same place: [visits] 0 and [pageviews] 0. *)
Theorem missing_dates_stay_zero
    (env : Env) (query : AnalyticsHistoricalParams)
    (events : list Event) (series scaffoldSeries : list Bucket)
    (results : list (list Fathom.AggregationRow)) :
  analyticsHistoricalEndpoint env query = Some events ->
  In (200, SeriesBody series) (responses events) ->
  scaffolded env query = Some scaffoldSeries ->
  fathomAggregationResult env query = Some results ->
  forall index bucket,
    nth_error scaffoldSeries index = Some bucket ->
    ~ In (date bucket) (map Fathom.date (List.concat results)) ->
    nth_error series index = Some bucket
    /\ visits bucket = JS.Num 0 /\ pageviews bucket = JS.Num 0.
Proof.
  intros E I S A index bucket Hb N.
  destruct (sent_series env query events series E I)
    as [dateFrom' [start [grouping [days [results' [u [_ [_ [S' [A' ->]]]]]]]]]].
  assert (results' = results) by congruence. subst results'.
  assert (scaffoldSeries = map zeroBucket days) by congruence. subst scaffoldSeries.
  split.
  - apply writeBack_keeps; [assumption|].
    intros K. apply N. now apply keys_merge_provided.
  - apply nth_error_In, in_map_iff in Hb. destruct Hb as [c [<- _]]. now split.
Qed.

Lemma missing_dates_stay_zero_witness :
  nth_error [mkBucket "2024-01-01" (JS.Num 0) (JS.Num 0);
             mkBucket "2024-01-02" (JS.Num 4) (JS.Num 7);
             mkBucket "2024-01-03" (JS.Num 0) (JS.Num 0);
             mkBucket "2024-01-04" (JS.Num 0) (JS.Num 0)] 2
  = Some (mkBucket "2024-01-03" (JS.Num 0) (JS.Num 0))
  /\ visits (mkBucket "2024-01-03" (JS.Num 0) (JS.Num 0)) = JS.Num 0
  /\ pageviews (mkBucket "2024-01-03" (JS.Num 0) (JS.Num 0)) = JS.Num 0.
Proof.
  apply (missing_dates_stay_zero Samples.twoStories Samples.dayQuery
           [CallGetBucketUrl "sigleapp.id.blockstack";
            CallGetPublicStories "https://gaia.blockstack.org/hub/1/";
            CallAggregatePath "2024-01-01" "day" "/sigleapp.id.blockstack/story-1";
            CallAggregatePath "2024-01-01" "day" "/sigleapp.id.blockstack/story-2";
            CallAggregatePath "2024-01-01" "day" "/sigleapp.id.blockstack";
            Respond 200
              (SeriesBody
                 [mkBucket "2024-01-01" (JS.Num 0) (JS.Num 0);
                  mkBucket "2024-01-02" (JS.Num 4) (JS.Num 7);
                  mkBucket "2024-01-03" (JS.Num 0) (JS.Num 0);
                  mkBucket "2024-01-04" (JS.Num 0) (JS.Num 0)])]
           _
           [mkBucket "2024-01-01" (JS.Num 0) (JS.Num 0);
            mkBucket "2024-01-02" (JS.Num 0) (JS.Num 0);
            mkBucket "2024-01-03" (JS.Num 0) (JS.Num 0);
            mkBucket "2024-01-04" (JS.Num 0) (JS.Num 0)]
           [[Fathom.mkRow "2024-01-02" "4" "7"]; []; []]).
  - reflexivity.
  - simpl. left. reflexivity.
  - reflexivity.
  - reflexivity.
  - reflexivity.
  - simpl. intros [H|[]]. discriminate.
Defined.

(** *** The numbers sent *)

(** C5, as the code has it.  In a series sent with status 200, every
    bucket has non-negative integers for [visits] and [pageviews],
    provided that every [visits] and [pageviews] string of the provider
    parses ([parseInt], radix 10) to a non-negative integer. *)
Theorem counts_non_negative
    (env : Env) (query : AnalyticsHistoricalParams)
    (events : list Event) (series : list Bucket)
    (results : list (list Fathom.AggregationRow)) :
  analyticsHistoricalEndpoint env query = Some events ->
  In (200, SeriesBody series) (responses events) ->
  fathomAggregationResult env query = Some results ->
  Forall (Forall rowIsNonNegative) results ->
  Forall (fun bucket =>
            JS.isNonNegativeInteger (visits bucket)
            /\ JS.isNonNegativeInteger (pageviews bucket)) series.
Proof.
  intros E I A H.
  destruct (sent_series env query events series E I)
    as [dateFrom' [start [grouping [days [results' [u [_ [_ [_ [A' ->]]]]]]]]]].
  assert (results' = results) by congruence. subst results'.
  unfold writeBack. apply fold_Forall.
  - apply Forall_forall. intros entry Hin. apply In_entries in Hin.
    pose proof (merge_nonNegative results H) as M.
    rewrite Forall_forall in M. destruct (M entry Hin) as [M1 M2].
    split; intros b [B1 B2]; split; assumption.
  - cbn [fst]. apply Forall_forall. intros b Hb.
    apply in_map_iff in Hb. destruct Hb as [c [<- _]]. simpl. lia.
Qed.

Lemma counts_non_negative_witness :
  Forall (fun bucket =>
            JS.isNonNegativeInteger (visits bucket)
            /\ JS.isNonNegativeInteger (pageviews bucket))
         [mkBucket "2024-01-01" (JS.Num 5) (JS.Num 6);
          mkBucket "2024-01-02" (JS.Num 0) (JS.Num 0)].
Proof.
  apply (counts_non_negative Samples.sameDayTwice Samples.dayQuery
           [CallGetBucketUrl "sigleapp.id.blockstack";
            CallGetPublicStories "https://gaia.blockstack.org/hub/1/";
            CallAggregatePath "2024-01-01" "day" "/sigleapp.id.blockstack/story-1";
            CallAggregatePath "2024-01-01" "day" "/sigleapp.id.blockstack";
            Respond 200
              (SeriesBody
                 [mkBucket "2024-01-01" (JS.Num 5) (JS.Num 6);
                  mkBucket "2024-01-02" (JS.Num 0) (JS.Num 0)])]
           _
           [[Fathom.mkRow "2024-01-01" "3" "5"]; [Fathom.mkRow "2024-01-01" "2" "1"]]).
  - reflexivity.
  - simpl. left. reflexivity.
  - reflexivity.
  - repeat constructor; discriminate.
Defined.

(** C5 without that proviso fails: for a provider row of 2024-01-01
    with [visits] "-3" and [pageviews] "n/a" the series sent with status
    200 has a bucket with [visits] -3 and [pageviews] [NaN]. *)
Lemma counts_follow_the_provider :
  exists events series bucket,
    analyticsHistoricalEndpoint Samples.oddCounts Samples.dayQuery = Some events
    /\ In (200, SeriesBody series) (responses events)
    /\ In bucket series
    /\ visits bucket = JS.Num (-3)
    /\ pageviews bucket = JS.NaN
    /\ ~ JS.isNonNegativeInteger (visits bucket)
    /\ ~ JS.isNonNegativeInteger (pageviews bucket).
Proof.
  eexists. exists [mkBucket "2024-01-01" (JS.Num (-3)) JS.NaN;
                   mkBucket "2024-01-02" (JS.Num 0) (JS.Num 0)].
  exists (mkBucket "2024-01-01" (JS.Num (-3)) JS.NaN).
  split; [reflexivity|].
  split; [simpl; left; reflexivity|].
  split; [left; reflexivity|].
  split; [reflexivity|]. split; [reflexivity|].
  split; simpl; [lia | tauto].
Qed.

(** *** A date that is not in the scaffold *)

(** C1, what the code does.  With a provider row dated 2024-01-03 while
    the scaffold ends on 2024-01-02, the handler reports the error and
    sends status 500 with the identifier, then goes on: it writes the
    totals of 2024-01-01 into the series and sends the series with status
    200.  In general a run that reaches the write-back always ends by
    sending the series with status 200. *)
Theorem missing_date_does_not_abort :
  analyticsHistoricalEndpoint Samples.dateOutsideScaffold Samples.dayQuery
  = Some [CallGetBucketUrl "sigleapp.id.blockstack";
          CallGetPublicStories "https://gaia.blockstack.org/hub/1/";
          CallAggregatePath "2024-01-01" "day" "/sigleapp.id.blockstack";
          CallCaptureMessage
            "No index for date 2024-01-03 and username sigleapp.id.blockstack";
          Respond 500
            (ErrorBody "Internal server error: 00000000000000000000000000000001");
          Respond 200
            (SeriesBody [mkBucket "2024-01-01" (JS.Num 2) (JS.Num 1);
                         mkBucket "2024-01-02" (JS.Num 0) (JS.Num 0)])]
  /\ forall env query,
       match fathomAggregationResult env query with
       | Some _ =>
           exists events series,
             analyticsHistoricalEndpoint env query
             = Some (events ++ [Respond 200 (SeriesBody series)])
       | None => True
       end.
Proof.
  split; [reflexivity|].
  intros env query. pose proof (run_cases env query) as R.
  destruct (fathomAggregationResult env query) as [results|] eqn:A; [|exact I].
  destruct (validate query) as [message | [[dateFrom' start] grouping]] eqn:V.
  - unfold fathomAggregationResult in A. rewrite V in A. discriminate.
  - destruct R as [days [_ [_ [u [_ [_ R]]]]]]. eauto.
Qed.

End Endpoint.

(* ================================================================= *)
(** ** More on objects: distinct keys and enumeration *)

Module ObjMore.

Import ObjFacts.

Section WithValues.
Context {V : Type}.
Implicit Types (o : Obj.t V) (k : string) (v : V).

Lemma keys_update k f o : map fst (Obj.update k f o) = map fst o.
Proof.
  induction o as [|[k0 v0] o IH]; simpl; [reflexivity|].
  destruct (String.eqb k0 k); simpl; [reflexivity | now rewrite IH].
Qed.

Lemma get_None k o : Obj.get k o = None <-> ~ In k (map fst o).
Proof.
  induction o as [|[k0 v0] o IH]; simpl; [tauto|].
  destruct (String.eqb_spec k0 k) as [->|N].
  - split; [discriminate | tauto].
  - rewrite IH. tauto.
Qed.

Lemma NoDup_set k v o : NoDup (map fst o) -> NoDup (map fst (Obj.set k v o)).
Proof.
  intros H. unfold Obj.set. destruct (Obj.get k o) eqn:G.
  - now rewrite keys_update.
  - rewrite map_app. simpl. apply get_None in G.
    apply NoDup_app; [assumption | repeat constructor; tauto |].
    intros x Hx [<-|[]]. contradiction.
Qed.

Lemma get_In k v o : Obj.get k o = Some v -> In (k, v) o.
Proof.
  induction o as [|[k0 v0] o IH]; simpl; [discriminate|].
  destruct (String.eqb_spec k0 k) as [->|N].
  - intros [= ->]. now left.
  - auto.
Qed.

Lemma In_get_NoDup k v o : NoDup (map fst o) -> In (k, v) o -> Obj.get k o = Some v.
Proof.
  induction o as [|[k0 v0] o IH]; simpl; [tauto|].
  intros H [E|I]; inversion H as [|? ? N H']; subst.
  - injection E as -> ->. now rewrite String.eqb_refl.
  - destruct (String.eqb_spec k0 k) as [->|_]; [|auto].
    exfalso. apply N. apply in_map_iff. exists (k, v). auto.
Qed.

(** With distinct keys, lookup does not depend on the order of the
    properties. *)
Lemma get_Permutation k o o' :
  Permutation o o' -> NoDup (map fst o) -> Obj.get k o = Obj.get k o'.
Proof.
  intros P H.
  assert (H' : NoDup (map fst o')).
  { eapply Permutation_NoDup; [|exact H]. now apply Permutation_map. }
  destruct (Obj.get k o) as [v|] eqn:G.
  - symmetry. apply In_get_NoDup; [assumption|].
    eapply Permutation_in; [exact P|]. now apply get_In.
  - symmetry. apply get_None. apply get_None in G. intros I. apply G.
    eapply Permutation_in; [|exact I]. apply Permutation_map. now symmetry.
Qed.

Lemma insertByIndex_Permutation i e (l : list (Z * (string * V))) :
  Permutation (Obj.insertByIndex i e l) ((i, e) :: l).
Proof.
  induction l as [|[j e'] l IH]; simpl; [reflexivity|].
  destruct (i <=? j); [reflexivity|].
  rewrite IH. apply perm_swap.
Qed.

Lemma indexEntries_Permutation o :
  Permutation (map snd (Obj.indexEntries o))
              (filter (fun e => negb (Obj.isNamed e)) o).
Proof.
  induction o as [|e o IH]; simpl; [reflexivity|].
  unfold Obj.isNamed at 1. destruct (Obj.arrayIndex (fst e)); simpl; [|exact IH].
  rewrite insertByIndex_Permutation. simpl. now constructor.
Qed.

Lemma filter_split_Permutation {A} (p : A -> bool) (l : list A) :
  Permutation (filter (fun x => negb (p x)) l ++ filter p l) l.
Proof.
  induction l as [|x l IH]; simpl; [reflexivity|].
  destruct (p x); simpl.
  - rewrite <- Permutation_middle. now constructor.
  - now constructor.
Qed.

(** Enumeration lists every own property once. *)
Lemma entries_Permutation o : Permutation (Obj.entries o) o.
Proof.
  unfold Obj.entries. rewrite indexEntries_Permutation.
  apply filter_split_Permutation.
Qed.

Lemma get_entries k o :
  NoDup (map fst o) -> Obj.get k (Obj.entries o) = Obj.get k o.
Proof.
  intros H. symmetry. apply get_Permutation; [|assumption].
  symmetry. apply entries_Permutation.
Qed.

Lemma NoDup_keys o : NoDup (map fst o) -> NoDup (Obj.keys o).
Proof.
  intros H. unfold Obj.keys.
  eapply Permutation_NoDup; [|exact H].
  apply Permutation_map. symmetry. apply entries_Permutation.
Qed.

Lemma In_keys_iff k o : In k (Obj.keys o) <-> In k (map fst o).
Proof.
  unfold Obj.keys. split; apply Permutation_in, Permutation_map.
  - apply entries_Permutation.
  - symmetry. apply entries_Permutation.
Qed.

End WithValues.
End ObjMore.

(* ================================================================= *)
(** ** More on the merge and on the write-back *)

Module MergeMore.

Import Sigle ObjFacts ObjMore MergeFacts.

Lemma accumulate_keys_NoDup o result :
  NoDup (map fst o) -> NoDup (map fst (accumulate o result)).
Proof.
  intros H. unfold accumulate. rewrite !keys_update.
  destruct (Obj.get (Fathom.date result) o); [assumption|].
  now apply NoDup_set.
Qed.

Lemma merge_keys_NoDup results : NoDup (map fst (merge results)).
Proof.
  rewrite merge_concat.
  generalize (List.concat results) as rows.
  assert (H : NoDup (map fst (@nil (string * DateValues)))) by constructor.
  revert H. generalize (@nil (string * DateValues)) as o.
  intros o H rows. revert o H.
  induction rows as [|r rows IH]; intros o H; simpl; [assumption|].
  apply IH. now apply accumulate_keys_NoDup.
Qed.

Lemma In_keys_merge d results :
  In d (Obj.keys (merge results)) <-> In d (map Fathom.date (List.concat results)).
Proof.
  split; [apply keys_merge_provided|].
  intros I. apply In_keys_iff.
  destruct (in_dec string_dec d (map fst (merge results))) as [|N]; [assumption|].
  exfalso. apply get_None in N. rewrite get_merge in N.
  destruct (rowsFor d results) eqn:E; [|discriminate].
  apply rowsFor_nil in E. contradiction.
Qed.

Lemma add_swap a x y : JS.add (JS.add a x) y = JS.add (JS.add a y) x.
Proof. destruct a, x, y; simpl; try reflexivity. f_equal. lia. Qed.

Lemma fold_add_Permutation l l' :
  Permutation l l' -> forall a, fold_left JS.add l a = fold_left JS.add l' a.
Proof.
  induction 1 as [|x l l' P IH|x y l|l l' l'' P1 IH1 P2 IH2]; intros a; simpl.
  - reflexivity.
  - apply IH.
  - now rewrite add_swap.
  - now rewrite IH1, IH2.
Qed.

Lemma filter_Permutation {A} (p : A -> bool) l l' :
  Permutation l l' -> Permutation (filter p l) (filter p l').
Proof.
  induction 1 as [|x l l' P IH|x y l|l l' l'' P1 IH1 P2 IH2]; simpl.
  - reflexivity.
  - destruct (p x); [now constructor | assumption].
  - destruct (p x), (p y); try reflexivity. apply perm_swap.
  - now rewrite IH1.
Qed.

End MergeMore.

Module WriteBackMore.

Import DateFns Sigle Trace ObjFacts ObjMore MergeFacts WriteBackFacts.

Lemma findIndex_None {A} (p : A -> bool) l :
  JS.findIndex p l = None <-> existsb p l = false.
Proof.
  induction l as [|x l IH]; simpl; [tauto|].
  destruct (p x); simpl; [split; discriminate|].
  destruct (JS.findIndex p l); [|tauto].
  split; [discriminate|]. intros E. apply IH in E. discriminate.
Qed.

Lemma hasDate_dates s s' d : map date s = map date s' -> hasDate s d = hasDate s' d.
Proof.
  unfold hasDate. revert s'.
  induction s as [|b s IH]; intros [|b' s'] E; simpl in *; try discriminate;
    [reflexivity|].
  injection E as E1 E2. now rewrite E1, (IH s' E2).
Qed.

Lemma hasDate_In s d : hasDate s d = true <-> In d (map date s).
Proof.
  unfold hasDate. rewrite existsb_exists, in_map_iff.
  split; intros [b [H1 H2]]; exists b.
  - apply String.eqb_eq in H2. tauto.
  - rewrite String.eqb_eq. tauto.
Qed.

Section Step.
Variable env : Env.

(** One call of the callback, on a series with distinct dates. *)
Lemma step_map hist events k v :
  NoDup (map date hist) ->
  fst (writeBackStep env (hist, events) (k, v))
  = map (fun b => if String.eqb (date b) k
                  then mkBucket (date b) (totalVisits v) (totalPageviews v)
                  else b) hist.
Proof.
  intros H. cbn [writeBackStep].
  destruct (JS.findIndex (fun historical => String.eqb (date historical) k) hist)
    as [i|] eqn:F; cbn [fst].
  - revert i F. induction hist as [|b hist IH]; intros i F; [discriminate|].
    simpl in F. inversion H as [|? ? N H']; subst. simpl.
    destruct (String.eqb_spec (date b) k) as [E|NE].
    + injection F as <-. simpl. f_equal.
      symmetry. erewrite map_ext_in; [apply map_id|].
      intros b' I. simpl.
      destruct (String.eqb_spec (date b') k) as [E'|]; [|reflexivity].
      exfalso. apply N. rewrite E, <- E'. now apply in_map.
    + destruct (JS.findIndex _ hist) as [j|]; [|discriminate].
      injection F as <-. simpl. f_equal. now apply IH.
  - apply findIndex_None in F. symmetry. erewrite map_ext_in; [apply map_id|].
    intros b I. simpl.
    destruct (String.eqb (date b) k) eqn:E; [|reflexivity].
    exfalso. assert (X : existsb (fun historical => String.eqb (date historical) k) hist = true).
    { apply existsb_exists. eauto. }
    congruence.
Qed.

Lemma step_trace hist events k v :
  snd (writeBackStep env (hist, events) (k, v))
  = events ++ (if hasDate hist k then [] else reportEvents env k).
Proof.
  cbn [writeBackStep]. unfold hasDate.
  destruct (JS.findIndex (fun historical => String.eqb (date historical) k) hist)
    as [i|] eqn:F; cbn [snd].
  - destruct (existsb _ hist) eqn:X; [now rewrite app_nil_r|].
    apply findIndex_None in X. congruence.
  - apply findIndex_None in F. rewrite F. reflexivity.
Qed.

(** The whole iteration, on entries with distinct keys. *)
Lemma fold_map entries : forall hist events,
  NoDup (map fst entries) -> NoDup (map date hist) ->
  fst (fold_left (writeBackStep env) entries (hist, events))
  = map (mergedBucket entries) hist.
Proof.
  induction entries as [|[k v] entries IH]; intros hist events He Hh;
    cbn [fold_left].
  - cbn [fst]. symmetry. erewrite map_ext; [apply map_id|]. reflexivity.
  - inversion He as [|? ? N He']; subst.
    destruct (writeBackStep env (hist, events) (k, v)) as [hist' events'] eqn:S.
    assert (E : hist' = fst (writeBackStep env (hist, events) (k, v)))
      by now rewrite S.
    rewrite step_map in E by assumption.
    assert (D : map date hist' = map date hist).
    { rewrite E, map_map. apply map_ext. intros b.
      now destruct (String.eqb (date b) k). }
    rewrite IH; [|assumption|now rewrite D].
    rewrite E, map_map. apply map_ext. intros b.
    unfold mergedBucket. cbn [Obj.get].
    destruct (String.eqb_spec (date b) k) as [Q|NQ].
    + cbn [date]. rewrite <- Q in N.
      apply get_None in N. rewrite N.
      destruct (String.eqb_spec k (date b)); [reflexivity|congruence].
    + destruct (String.eqb_spec k (date b)); [congruence|reflexivity].
Qed.

Lemma fold_trace entries : forall hist events,
  snd (fold_left (writeBackStep env) entries (hist, events))
  = events
    ++ flat_map (reportEvents env)
         (filter (fun k => negb (hasDate hist k)) (map fst entries)).
Proof.
  induction entries as [|[k v] entries IH]; intros hist events; cbn [fold_left].
  - simpl. now rewrite app_nil_r.
  - pose proof (step_trace hist events k v) as T.
    pose proof (step_dates env hist events (k, v)) as D.
    destruct (writeBackStep env (hist, events) (k, v)) as [hist' events'].
    cbn [fst snd] in T, D. rewrite IH, T, <- app_assoc. f_equal.
    cbn [map fst filter].
    rewrite (filter_ext (fun k0 => negb (hasDate hist' k0))
                        (fun k0 => negb (hasDate hist k0)))
      by (intros d; now rewrite (hasDate_dates hist' hist d D)).
    destruct (hasDate hist k); reflexivity.
Qed.

End Step.
End WriteBackMore.

(* ================================================================= *)
(** ** The whole trace of a run *)

Module RunMore.

Import DateFns Sigle Trace CalendarFacts ScaffoldFacts FormatFacts ObjFacts ObjMore
       MergeFacts MergeMore WriteBackFacts WriteBackMore RunFacts.

Lemma validate_wellFormed query s start grouping :
  dateFrom query = Some s -> parse s = Some start ->
  dateGrouping query = Some grouping ->
  grouping = "day" \/ grouping = "month" ->
  validate query = inr (s, start, grouping).
Proof.
  intros D P G H. unfold validate. rewrite D.
  destruct s as [|c s]; [discriminate|]. rewrite P, G.
  destruct H as [-> | ->]; reflexivity.
Qed.

Lemma validate_inl query message :
  validate query = inl message -> ~ wellFormed query.
Proof.
  intros V [s [start [g [D [P [G H]]]]]].
  rewrite (validate_wellFormed _ _ _ _ D P G H) in V. discriminate.
Qed.

Lemma mergedBucket_entries o bucket :
  NoDup (map fst o) -> mergedBucket (Obj.entries o) bucket = mergedBucket o bucket.
Proof. intros H. unfold mergedBucket. now rewrite get_entries. Qed.

(** The scaffold of a validated query has distinct dates. *)
Lemma scaffold_dates_NoDup dateTo start days s :
  parse s = Some start -> Covers dateTo start days ->
  NoDup (map date (map zeroBucket days)).
Proof.
  intros P C. destruct (parse_valid _ _ P) as [Hv [_ Y]].
  rewrite map_map. cbn [zeroBucket date].
  now apply Covers_format_NoDup with (dateTo := dateTo) (d := start).
Qed.

(** A run that reaches the fetch, in full. *)
Lemma fetch_run env query results :
  fathomAggregationResult env query = Some results ->
  exists dateFrom' start grouping days u,
    validate query = inr (dateFrom', start, grouping)
    /\ Covers (now env) start days
    /\ scaffolded env query = Some (map zeroBucket days)
    /\ bucketUrl (getBucketUrl env query username) = Some u
    /\ results = map (aggregatePath env dateFrom' grouping)
                     (storiesPath (getPublicStories env u))
    /\ analyticsHistoricalEndpoint env query
       = Some (fetchTrace env dateFrom' grouping u (merge results)
                 (map zeroBucket days)
               ++ [Respond 200
                     (SeriesBody (map (mergedBucket (merge results))
                                      (map zeroBucket days)))]).
Proof.
  intros A. pose proof (run_cases env query) as R.
  destruct (validate query) as [message | [[dateFrom' start] grouping]] eqn:V.
  { unfold fathomAggregationResult in A. rewrite V in A. discriminate. }
  destruct R as [days [C [S R]]]. rewrite A in R.
  destruct R as [u [B [Q R]]].
  exists dateFrom', start, grouping, days, u.
  repeat (split; [assumption || reflexivity|]).
  rewrite R. f_equal. unfold writeBack, fetchTrace, datesWithoutBucket, Obj.keys.
  destruct (validate_inr _ _ _ _ V) as [_ [P _]].
  rewrite fold_trace, fold_map.
  - rewrite (map_ext (mergedBucket (Obj.entries (merge results)))
                     (mergedBucket (merge results)))
      by (intros b; apply mergedBucket_entries, merge_keys_NoDup).
    reflexivity.
  - apply (NoDup_keys (merge results)), merge_keys_NoDup.
  - eapply scaffold_dates_NoDup; eassumption.
Qed.

Lemma responses_reports env dates :
  responses (flat_map (reportEvents env) dates)
  = map (fun d => (500, ErrorBody ("Internal server error: "
                     ++ captureMessage env
                          ("No index for date " ++ d ++ " and username " ++ username))%string))
        dates.
Proof. induction dates as [|d dates IH]; simpl; [reflexivity | now rewrite IH]. Qed.

Lemma responses_fetchCalls env dateFrom' grouping u :
  responses (fetchCalls env dateFrom' grouping u) = [].
Proof. unfold fetchCalls. cbn [responses]. apply responses_calls. Qed.

(** The responses of such a run: one 500 for each accumulated date
    without a bucket, then the 200. *)
Lemma fetch_responses env dateFrom' grouping u datesValues scaffoldSeries series :
  responses (fetchTrace env dateFrom' grouping u datesValues scaffoldSeries
             ++ [Respond 200 (SeriesBody series)])
  = map (fun d => (500, ErrorBody ("Internal server error: "
                     ++ captureMessage env
                          ("No index for date " ++ d ++ " and username " ++ username))%string))
        (datesWithoutBucket datesValues scaffoldSeries)
    ++ [(200, SeriesBody series)].
Proof.
  unfold fetchTrace.
  rewrite !responses_app, responses_fetchCalls, responses_reports. reflexivity.
Qed.

(** The series of a 200 response is the scaffold with the totals put in. *)
Lemma sent_series_merged env query events series scaffoldSeries results :
  analyticsHistoricalEndpoint env query = Some events ->
  In (200, SeriesBody series) (responses events) ->
  scaffolded env query = Some scaffoldSeries ->
  fathomAggregationResult env query = Some results ->
  series = map (mergedBucket (merge results)) scaffoldSeries.
Proof.
  intros E I S A.
  destruct (fetch_run env query results A)
    as [d' [s' [g' [days [u [_ [_ [S' [_ [_ F]]]]]]]]]].
  assert (scaffoldSeries = map zeroBucket days) by congruence. subst scaffoldSeries.
  assert (Ev : events
               = fetchTrace env d' g' u (merge results) (map zeroBucket days)
                 ++ [Respond 200
                       (SeriesBody (map (mergedBucket (merge results))
                                        (map zeroBucket days)))])
    by congruence.
  subst events. rewrite fetch_responses in I. apply in_app_or in I.
  destruct I as [I|[I|[]]].
  - apply in_map_iff in I. destruct I as [d [Q _]]. discriminate.
  - congruence.
Qed.

End RunMore.

(* ================================================================= *)
(** ** Further properties of the endpoint *)

Module Runs.

Import DateFns Sigle Trace CalendarFacts ScaffoldFacts FormatFacts ObjFacts ObjMore
       MergeFacts MergeMore WriteBackFacts WriteBackMore RunFacts RunMore.

(** *** Resolution of the user (lines 73-80) *)

(** X1.  For a query that passes the validation, when [getBucketUrl]
    gives no profile, or no bucket URL, or an empty one, the handler
    reports "No profile or bucketUrl for sigleapp.id.blockstack", answers
    500 with the identifier of the report, and stops: the stories are not
    listed, the provider is not queried, nothing else is sent. *)
Theorem resolution_failure_stops (env : Env) (query : AnalyticsHistoricalParams) :
  wellFormed query ->
  profile (getBucketUrl env query "sigleapp.id.blockstack") = None
  \/ JS.truthy (bucketUrl (getBucketUrl env query "sigleapp.id.blockstack")) = false ->
  analyticsHistoricalEndpoint env query
  = Some [CallGetBucketUrl "sigleapp.id.blockstack";
          CallCaptureMessage "No profile or bucketUrl for sigleapp.id.blockstack";
          Respond 500
            (ErrorBody
               ("Internal server error: "
                  ++ captureMessage env
                       "No profile or bucketUrl for sigleapp.id.blockstack")%string)].
Proof.
  intros [s [start [g [D [P [G H]]]]]] F.
  pose proof (run_cases env query) as R.
  rewrite (validate_wellFormed _ _ _ _ D P G H) in R.
  destruct R as [days [_ [_ R]]].
  assert (A : fathomAggregationResult env query = None).
  { unfold fathomAggregationResult.
    rewrite (validate_wellFormed _ _ _ _ D P G H). cbn zeta.
    change username with "sigleapp.id.blockstack".
    destruct (profile (getBucketUrl env query "sigleapp.id.blockstack"));
      [|reflexivity].
    destruct F as [F|F]; [discriminate|].
    destruct (bucketUrl (getBucketUrl env query "sigleapp.id.blockstack"))
      as [[|c u]|]; try reflexivity. discriminate. }
  rewrite A in R. exact R.
Qed.

Lemma resolution_failure_stops_witness :
  analyticsHistoricalEndpoint MoreSamples.noProfile Samples.dayQuery
  = Some [CallGetBucketUrl "sigleapp.id.blockstack";
          CallCaptureMessage "No profile or bucketUrl for sigleapp.id.blockstack";
          Respond 500
            (ErrorBody "Internal server error: 00000000000000000000000000000002")]
  /\ analyticsHistoricalEndpoint MoreSamples.emptyBucketUrl Samples.dayQuery
     = Some [CallGetBucketUrl "sigleapp.id.blockstack";
             CallCaptureMessage "No profile or bucketUrl for sigleapp.id.blockstack";
             Respond 500
               (ErrorBody "Internal server error: 00000000000000000000000000000002")].
Proof.
  split.
  - apply (resolution_failure_stops MoreSamples.noProfile Samples.dayQuery).
    + exists "2024-01-01", (mkDateTime 2024 1 1 0), "day".
      repeat split; try reflexivity. left. reflexivity.
    + left. reflexivity.
  - apply (resolution_failure_stops MoreSamples.emptyBucketUrl Samples.dayQuery).
    + exists "2024-01-01", (mkDateTime 2024 1 1 0), "day".
      repeat split; try reflexivity. left. reflexivity.
    + right. reflexivity.
Defined.

(** *** What the validation lets through (lines 34-52) *)

(** X2.  A query with a [dateFrom] that parses and a [dateGrouping] of
    "day" or "month" is never answered 400: the handler goes on to
    [getBucketUrl].  Any other query gets a 400 response and nothing
    else. *)
Theorem validation_accepts
    (env : Env) (query : AnalyticsHistoricalParams) (events : list Event) :
  analyticsHistoricalEndpoint env query = Some events ->
  (wellFormed query ->
   hd_error events = Some (CallGetBucketUrl "sigleapp.id.blockstack")
   /\ Forall (fun response => fst response <> 400) (responses events))
  /\ (~ wellFormed query ->
      exists message, events = [Respond 400 (ErrorBody message)]).
Proof.
  intros E. pose proof (run_cases env query) as R.
  destruct (validate query) as [message | [[dateFrom' start] grouping]] eqn:V.
  - split.
    + intros W. exfalso. exact (validate_inl _ _ V W).
    + intros _. exists message. congruence.
  - split.
    + intros _. destruct R as [days [_ [_ R]]].
      destruct (fathomAggregationResult env query) as [results|] eqn:A.
      * destruct (fetch_run env query results A)
          as [d' [s' [g' [days' [u [_ [_ [_ [_ [_ F]]]]]]]]]].
        rewrite E in F.
        assert (Ev : events
                     = fetchTrace env d' g' u (merge results) (map zeroBucket days')
                       ++ [Respond 200
                             (SeriesBody (map (mergedBucket (merge results))
                                              (map zeroBucket days')))])
          by congruence.
        clear F. subst events. split; [reflexivity|].
        rewrite fetch_responses.
        apply Forall_app. split.
        -- apply Forall_forall. intros r I. apply in_map_iff in I.
           destruct I as [d [<- _]]. discriminate.
        -- repeat constructor. discriminate.
      * rewrite E in R. injection R as ->. split; [reflexivity|].
        repeat constructor. discriminate.
    + intros N. exfalso. apply N.
      destruct (validate_inr _ _ _ _ V) as [D [P [G H]]].
      exists dateFrom', start, grouping. auto.
Qed.

Lemma validation_accepts_witness :
  (hd_error
     [CallGetBucketUrl "sigleapp.id.blockstack";
      CallCaptureMessage "No profile or bucketUrl for sigleapp.id.blockstack";
      Respond 500 (ErrorBody "Internal server error: 00000000000000000000000000000002")]
   = Some (CallGetBucketUrl "sigleapp.id.blockstack")
   /\ Forall (fun response => fst response <> 400)
             (responses
                [CallGetBucketUrl "sigleapp.id.blockstack";
                 CallCaptureMessage "No profile or bucketUrl for sigleapp.id.blockstack";
                 Respond 500
                   (ErrorBody "Internal server error: 00000000000000000000000000000002")]))
  /\ exists message,
       [Respond 400 (ErrorBody "dateGrouping must be day or month")]
       = [Respond 400 (ErrorBody message)].
Proof.
  split.
  - apply (proj1 (validation_accepts MoreSamples.noProfile Samples.dayQuery _ eq_refl)).
    exists "2024-01-01", (mkDateTime 2024 1 1 0), "day".
    repeat split; try reflexivity. left. reflexivity.
  - apply (proj2 (validation_accepts MoreSamples.noProfile
                    (mkParams (Some "2024-01-01") (Some "week")) _ eq_refl)).
    intros [s [start [g [D [P [G [H|H]]]]]]]; subst g; discriminate.
Defined.

(** *** What the write-back puts in (lines 100-128) *)

(** X3.  In a series sent with status 200, the bucket of every day of
    the scaffold whose date some per-path result contains holds, at the
    same place and under the same date, the sums over the rows of that
    date of the parsed [visits] and of the parsed [pageviews]. *)
Theorem totals_written_back
    (env : Env) (query : AnalyticsHistoricalParams)
    (events : list Event) (series scaffoldSeries : list Bucket)
    (results : list (list Fathom.AggregationRow)) :
  analyticsHistoricalEndpoint env query = Some events ->
  In (200, SeriesBody series) (responses events) ->
  scaffolded env query = Some scaffoldSeries ->
  fathomAggregationResult env query = Some results ->
  forall index bucket,
    nth_error scaffoldSeries index = Some bucket ->
    In (date bucket) (map Fathom.date (List.concat results)) ->
    nth_error series index
    = Some (mkBucket (date bucket)
              (sumNumbers (map (fun result => JS.parseInt (Fathom.visits result))
                               (rowsFor (date bucket) results)))
              (sumNumbers (map (fun result => JS.parseInt (Fathom.pageviews result))
                               (rowsFor (date bucket) results)))).
Proof.
  intros E I S A index bucket Hb Hd.
  rewrite (sent_series_merged _ _ _ _ _ _ E I S A).
  rewrite nth_error_map, Hb. cbn [option_map]. f_equal.
  unfold mergedBucket. rewrite get_merge.
  destruct (rowsFor (date bucket) results) as [|r rs] eqn:Q; [|reflexivity].
  apply rowsFor_nil in Q. contradiction.
Qed.

Lemma totals_written_back_witness :
  nth_error [mkBucket "2024-01-01" (JS.Num 5) (JS.Num 6);
             mkBucket "2024-01-02" (JS.Num 0) (JS.Num 0)] 0
  = Some (mkBucket "2024-01-01"
            (sumNumbers [JS.Num 3; JS.Num 2]) (sumNumbers [JS.Num 5; JS.Num 1])).
Proof.
  apply (totals_written_back Samples.sameDayTwice Samples.dayQuery
           [CallGetBucketUrl "sigleapp.id.blockstack";
            CallGetPublicStories "https://gaia.blockstack.org/hub/1/";
            CallAggregatePath "2024-01-01" "day" "/sigleapp.id.blockstack/story-1";
            CallAggregatePath "2024-01-01" "day" "/sigleapp.id.blockstack";
            Respond 200
              (SeriesBody
                 [mkBucket "2024-01-01" (JS.Num 5) (JS.Num 6);
                  mkBucket "2024-01-02" (JS.Num 0) (JS.Num 0)])]
           _
           [mkBucket "2024-01-01" (JS.Num 0) (JS.Num 0);
            mkBucket "2024-01-02" (JS.Num 0) (JS.Num 0)]
           [[Fathom.mkRow "2024-01-01" "3" "5"]; [Fathom.mkRow "2024-01-01" "2" "1"]]
           eq_refl (or_introl eq_refl) eq_refl eq_refl
           0%nat (mkBucket "2024-01-01" (JS.Num 0) (JS.Num 0)) eq_refl).
  left. reflexivity.
Defined.

(** *** A run that reaches the fetch (lines 73-130) *)

(** X4.  When the fetch has resolved and every provider date has a
    bucket in the scaffold, the whole trace of the handler is: the call
    of [getBucketUrl], the call of [getPublicStories] with the bucket URL
    it got, one call of [aggregatePath] per path with the [dateFrom] and
    [dateGrouping] strings of the query as they came, and the 200
    response with the scaffold where each bucket with accumulated totals
    has them: one response, and no report. *)
Theorem clean_run_trace
    (env : Env) (query : AnalyticsHistoricalParams)
    (scaffoldSeries : list Bucket) (results : list (list Fathom.AggregationRow)) :
  scaffolded env query = Some scaffoldSeries ->
  fathomAggregationResult env query = Some results ->
  (forall d, In d (map Fathom.date (List.concat results)) ->
             In d (map date scaffoldSeries)) ->
  exists dateFrom' grouping u,
    dateFrom query = Some dateFrom'
    /\ dateGrouping query = Some grouping
    /\ bucketUrl (getBucketUrl env query "sigleapp.id.blockstack") = Some u
    /\ results = map (aggregatePath env dateFrom' grouping)
                     (storiesPath (getPublicStories env u))
    /\ analyticsHistoricalEndpoint env query
       = Some (CallGetBucketUrl "sigleapp.id.blockstack"
               :: CallGetPublicStories u
               :: map (CallAggregatePath dateFrom' grouping)
                      (storiesPath (getPublicStories env u))
               ++ [Respond 200
                     (SeriesBody (map (mergedBucket (merge results)) scaffoldSeries))]).
Proof.
  intros S A H.
  destruct (fetch_run env query results A)
    as [d' [s' [g' [days [u [V [_ [S' [B [Q F]]]]]]]]]].
  assert (scaffoldSeries = map zeroBucket days) by congruence. subst scaffoldSeries.
  destruct (validate_inr _ _ _ _ V) as [D [_ [G _]]].
  exists d', g', u. repeat (split; [assumption|]).
  rewrite F. unfold fetchTrace, fetchCalls.
  assert (M : datesWithoutBucket (merge results) (map zeroBucket days) = []).
  { destruct (datesWithoutBucket (merge results) (map zeroBucket days))
      as [|d rest] eqn:E; [reflexivity|].
    exfalso. assert (I : In d (d :: rest)) by now left.
    rewrite <- E in I. unfold datesWithoutBucket in I.
    apply filter_In in I. destruct I as [I N].
    apply In_keys_merge, H, hasDate_In in I. rewrite I in N. discriminate. }
  rewrite M. cbn [flat_map]. rewrite app_nil_r. reflexivity.
Qed.

Lemma clean_run_trace_witness :
  exists dateFrom' grouping u,
    dateFrom Samples.dayQuery = Some dateFrom'
    /\ dateGrouping Samples.dayQuery = Some grouping
    /\ bucketUrl (getBucketUrl Samples.sameDayTwice Samples.dayQuery
                    "sigleapp.id.blockstack") = Some u
    /\ [[Fathom.mkRow "2024-01-01" "3" "5"]; [Fathom.mkRow "2024-01-01" "2" "1"]]
       = map (aggregatePath Samples.sameDayTwice dateFrom' grouping)
             (storiesPath (getPublicStories Samples.sameDayTwice u))
    /\ analyticsHistoricalEndpoint Samples.sameDayTwice Samples.dayQuery
       = Some (CallGetBucketUrl "sigleapp.id.blockstack"
               :: CallGetPublicStories u
               :: map (CallAggregatePath dateFrom' grouping)
                      (storiesPath (getPublicStories Samples.sameDayTwice u))
               ++ [Respond 200
                     (SeriesBody
                        (map (mergedBucket
                                (merge [[Fathom.mkRow "2024-01-01" "3" "5"];
                                        [Fathom.mkRow "2024-01-01" "2" "1"]]))
                             [mkBucket "2024-01-01" (JS.Num 0) (JS.Num 0);
                              mkBucket "2024-01-02" (JS.Num 0) (JS.Num 0)]))]).
Proof.
  apply (clean_run_trace Samples.sameDayTwice Samples.dayQuery); try reflexivity.
  simpl. intros d [<-|[<-|[]]]; left; reflexivity.
Defined.

(** X5.  The first response of a run that reaches the fetch is the 200
    with the scaffold and its totals when every provider date has a
    bucket; otherwise it is the 500 that reports the first accumulated
    date, in the order of [Object.keys(datesValues)], that has none. *)
Theorem first_response
    (env : Env) (query : AnalyticsHistoricalParams) (events : list Event)
    (scaffoldSeries : list Bucket) (results : list (list Fathom.AggregationRow)) :
  analyticsHistoricalEndpoint env query = Some events ->
  scaffolded env query = Some scaffoldSeries ->
  fathomAggregationResult env query = Some results ->
  hd_error (responses events)
  = Some match datesWithoutBucket (merge results) scaffoldSeries with
         | [] =>
             (200, SeriesBody (map (mergedBucket (merge results)) scaffoldSeries))
         | d :: _ =>
             (500,
              ErrorBody
                ("Internal server error: "
                   ++ captureMessage env
                        ("No index for date " ++ d
                           ++ " and username sigleapp.id.blockstack"))%string)
         end
  /\ (forall d, In d (datesWithoutBucket (merge results) scaffoldSeries) <->
                In d (map Fathom.date (List.concat results))
                /\ ~ In d (map date scaffoldSeries)).
Proof.
  intros E S A. split.
  - destruct (fetch_run env query results A)
      as [d' [s' [g' [days [u [_ [_ [S' [_ [_ F]]]]]]]]]].
    assert (scaffoldSeries = map zeroBucket days) by congruence. subst scaffoldSeries.
    assert (Ev : events
                 = fetchTrace env d' g' u (merge results) (map zeroBucket days)
                   ++ [Respond 200
                         (SeriesBody (map (mergedBucket (merge results))
                                          (map zeroBucket days)))])
      by congruence.
    subst events. rewrite fetch_responses.
    destruct (datesWithoutBucket (merge results) (map zeroBucket days));
      reflexivity.
  - intros d. unfold datesWithoutBucket.
    rewrite filter_In, In_keys_merge, negb_true_iff.
    rewrite <- hasDate_In. destruct (hasDate scaffoldSeries d); intuition congruence.
Qed.

Lemma first_response_witness :
  hd_error
    (responses
       [CallGetBucketUrl "sigleapp.id.blockstack";
        CallGetPublicStories "https://gaia.blockstack.org/hub/1/";
        CallAggregatePath "2024-01-01" "day" "/sigleapp.id.blockstack";
        CallCaptureMessage
          "No index for date 2024-01-03 and username sigleapp.id.blockstack";
        Respond 500
          (ErrorBody "Internal server error: 00000000000000000000000000000001");
        Respond 200
          (SeriesBody [mkBucket "2024-01-01" (JS.Num 2) (JS.Num 1);
                       mkBucket "2024-01-02" (JS.Num 0) (JS.Num 0)])])
  = Some (500, ErrorBody "Internal server error: 00000000000000000000000000000001").
Proof.
  apply (proj1 (first_response Samples.dateOutsideScaffold Samples.dayQuery
                  _ _ _ eq_refl eq_refl eq_refl)).
Defined.

(** *** The answers of a run (lines 34-130) *)

Lemma In_responses status body events :
  In (Respond status body) events -> In (status, body) (responses events).
Proof.
  induction events as [|e events IH]; simpl; [tauto|].
  intros [->|I]; [now left|].
  destruct e; auto. right. auto.
Qed.

(** Where an element of a list that ends with [z] can be. *)
Lemma split_last {A} (front : list A) (z : A) : forall before x after,
  front ++ [z] = before ++ x :: after ->
  (after = [] /\ x = z) \/ In x front.
Proof.
  induction front as [|a front IH]; intros before x after E.
  - destruct before as [|b before]; simpl in E.
    + injection E as <- <-. left. now split.
    + injection E as _ E. destruct before; discriminate.
  - destruct before as [|b before]; simpl in E.
    + injection E as <- _. right. now left.
    + injection E as _ E. destruct (IH _ _ _ E) as [H|H]; [now left|].
      right. now right.
Qed.

(** X6.  Whatever response occurs in a run: a series is sent with status
    200 only and nothing comes after it; an error body is sent with
    status 400, before and after which nothing happens, or with status
    500.  This holds of every initial part of a run as well. *)
Theorem response_discipline
    (env : Env) (query : AnalyticsHistoricalParams)
    (before after rest : list Event) (status : Z) (body : Body) :
  analyticsHistoricalEndpoint env query
  = Some ((before ++ Respond status body :: after) ++ rest) ->
  match body with
  | SeriesBody _ => status = 200 /\ after = []
  | ErrorBody _ => (status = 400 /\ before = [] /\ after = []) \/ status = 500
  end.
Proof.
  rewrite <- app_assoc. cbn [app]. intros E.
  pose proof (run_cases env query) as R.
  destruct (validate query) as [message | [[dateFrom' start] grouping]] eqn:V.
  - rewrite E in R. injection R as R.
    destruct before as [|b before]; simpl in R.
    + injection R as -> -> R. destruct after; [|discriminate].
      left. auto.
    + injection R as _ R. destruct before; discriminate.
  - destruct R as [days [_ [_ R]]].
    destruct (fathomAggregationResult env query) as [results|] eqn:A.
    + destruct (fetch_run env query results A)
        as [d' [s' [g' [days' [u [_ [_ [_ [_ [_ F]]]]]]]]]].
      assert (F' : fetchTrace env d' g' u (merge results) (map zeroBucket days')
                   ++ [Respond 200
                         (SeriesBody (map (mergedBucket (merge results))
                                          (map zeroBucket days')))]
                   = before ++ Respond status body :: (after ++ rest))
        by congruence.
      clear F. apply split_last in F'. destruct F' as [[N X]|I].
      * injection X as -> ->. apply app_eq_nil in N. destruct N as [-> _].
        split; reflexivity.
      * apply In_responses in I. unfold fetchTrace in I.
        rewrite responses_app, responses_fetchCalls, responses_reports in I.
        apply in_map_iff in I. destruct I as [d [Q _]].
        injection Q as <- <-. right. reflexivity.
    + rewrite E in R. injection R as R. unfold resolutionFailure in R.
      assert (I : In (Respond status body)
                     (before ++ Respond status body :: after ++ rest))
        by (apply in_elt).
      rewrite R in I. destruct I as [I|[I|[I|[]]]]; try discriminate.
      injection I as <- <-. right. reflexivity.
Qed.

Lemma response_discipline_witness :
  ((400 = 400 /\ @nil Event = [] /\ @nil Event = []) \/ 400 = 500)
  /\ (200 = 200 /\ @nil Event = []).
Proof.
  split.
  - apply (response_discipline Samples.twoStories
             (mkParams (Some "2024-01-01") (Some "week")) [] [] []
             400 (ErrorBody "dateGrouping must be day or month")).
    reflexivity.
  - apply (response_discipline Samples.dateOutsideScaffold Samples.dayQuery
             [CallGetBucketUrl "sigleapp.id.blockstack";
              CallGetPublicStories "https://gaia.blockstack.org/hub/1/";
              CallAggregatePath "2024-01-01" "day" "/sigleapp.id.blockstack";
              CallCaptureMessage
                "No index for date 2024-01-03 and username sigleapp.id.blockstack";
              Respond 500
                (ErrorBody "Internal server error: 00000000000000000000000000000001")]
             [] [] 200
             (SeriesBody [mkBucket "2024-01-01" (JS.Num 2) (JS.Num 1);
                          mkBucket "2024-01-02" (JS.Num 0) (JS.Num 0)])).
    reflexivity.
Defined.

(** *** The accumulated dates (lines 100-112) *)

(** X7.  The keys of [datesValues] after the merge are the provider
    dates, each once, however many rows and paths carry it. *)
Theorem merge_keys (results : list (list Fathom.AggregationRow)) :
  NoDup (Obj.keys (merge results))
  /\ forall d, In d (Obj.keys (merge results))
               <-> In d (map Fathom.date (List.concat results)).
Proof.
  split.
  - apply (NoDup_keys (merge results)), merge_keys_NoDup.
  - intros d. apply In_keys_merge.
Qed.

(** X8.  The totals of a date do not depend on the order of the paths,
    nor on the order of the rows: two fetches that return the same rows
    give every date the same totals. *)
Theorem merge_order_independent
    (results results' : list (list Fathom.AggregationRow)) :
  Permutation (List.concat results) (List.concat results') ->
  forall d, Obj.get d (merge results) = Obj.get d (merge results').
Proof.
  intros P d. rewrite !get_merge. unfold rowsFor.
  pose proof (filter_Permutation
                (fun result => String.eqb (Fathom.date result) d) _ _ P) as Q.
  destruct (filter _ (List.concat results)) as [|r rs] eqn:E1;
    destruct (filter _ (List.concat results')) as [|r' rs'] eqn:E2.
  - reflexivity.
  - apply Permutation_nil in Q. discriminate.
  - symmetry in Q. apply Permutation_nil in Q. discriminate.
  - unfold sumNumbers. f_equal. f_equal; apply fold_add_Permutation;
      now apply Permutation_map.
Qed.

Lemma merge_order_independent_witness :
  Obj.get "2024-01-01"
    (merge [[Fathom.mkRow "2024-01-01" "3" "5"; Fathom.mkRow "2024-01-02" "4" "7"];
            [Fathom.mkRow "2024-01-01" "2" "1"]])
  = Obj.get "2024-01-01"
      (merge [[Fathom.mkRow "2024-01-01" "2" "1"];
              [Fathom.mkRow "2024-01-02" "4" "7"; Fathom.mkRow "2024-01-01" "3" "5"]]).
Proof.
  apply (merge_order_independent
           [[Fathom.mkRow "2024-01-01" "3" "5"; Fathom.mkRow "2024-01-02" "4" "7"];
            [Fathom.mkRow "2024-01-01" "2" "1"]]
           [[Fathom.mkRow "2024-01-01" "2" "1"];
            [Fathom.mkRow "2024-01-02" "4" "7"; Fathom.mkRow "2024-01-01" "3" "5"]]).
  simpl.
  apply Permutation_trans
    with [Fathom.mkRow "2024-01-01" "3" "5"; Fathom.mkRow "2024-01-01" "2" "1";
          Fathom.mkRow "2024-01-02" "4" "7"].
  - apply perm_skip. apply perm_swap.
  - apply Permutation_trans
      with [Fathom.mkRow "2024-01-01" "2" "1"; Fathom.mkRow "2024-01-01" "3" "5";
            Fathom.mkRow "2024-01-02" "4" "7"].
    + apply perm_swap.
    + apply perm_skip. apply perm_swap.
Defined.

End Runs.

(* ================================================================= *)
(** ** More on the scaffold *)

Module ScaffoldMore.

Import DateFns Sigle Trace CalendarFacts ScaffoldFacts FormatFacts RunFacts.

(** What the loop of a validated query went through. *)
Lemma scaffolded_Some env query series :
  scaffolded env query = Some series ->
  exists s start grouping days,
    validate query = inr (s, start, grouping)
    /\ parse s = Some start
    /\ Covers (now env) start days
    /\ series = map zeroBucket days.
Proof.
  unfold scaffolded. intros S.
  destruct (validate query) as [|[[s start] g]] eqn:V; [discriminate|].
  destruct (validate_inr _ _ _ _ V) as [_ [P _]].
  destruct (parse_valid _ _ P) as [Hv _].
  destruct (scaffold_covers start (now env) Hv) as [days [E C]].
  exists s, start, g, days. repeat split; try assumption. congruence.
Qed.

Lemma isBefore_trans_le c dateTo dateTo' :
  isBefore c dateTo = true -> isBefore dateTo' dateTo = false ->
  isBefore c dateTo' = true.
Proof.
  rewrite !isBefore_true, isBefore_false. lia.
Qed.

(** A later end only adds days. *)
Lemma Covers_prefix dateTo dateTo' d days :
  Covers dateTo d days ->
  isBefore dateTo' dateTo = false ->
  forall days', Covers dateTo' d days' -> exists more, days' = days ++ more.
Proof.
  intros C L. induction C as [d B | d days B C IH]; intros days' C'.
  - exists days'. reflexivity.
  - pose proof (isBefore_trans_le _ _ _ B L) as B'.
    inversion C'; subst; [congruence|].
    destruct (IH _ H0) as [more ->]. exists more. reflexivity.
Qed.

Lemma sorted_last {A} (R : A -> A -> Prop) l x :
  StronglySorted R l -> In x l -> (forall y, In y l -> ~ R x y) ->
  exists earlier, l = earlier ++ [x].
Proof.
  induction 1 as [|a l S IH F]; intros I N; [destruct I|].
  destruct l as [|b l].
  - destruct I as [->|[]]. exists []. reflexivity.
  - destruct I as [->|I].
    + exfalso. rewrite Forall_forall in F.
      apply (N b); [right; now left | apply F; now left].
    + destruct (IH I) as [earlier E].
      * intros y Hy. apply N. now right.
      * exists (a :: earlier). simpl. now rewrite E.
Qed.

Lemma startOfDay_valid d : validDay d -> validDay (startOfDay d).
Proof. intros H. exact H. Qed.

(** [takeDigits] on a run of digits of the length asked for. *)
Lemma takeDigits_exact s : forall acc rest,
  allDigits s = true ->
  takeDigits (String.length s) (s ++ rest)%string acc = (JS.digitsPrefix s acc, rest).
Proof.
  induction s as [|c s IH]; intros acc rest H; simpl; [reflexivity|].
  simpl in H. destruct (JS.digitValue c) as [v|]; [|discriminate].
  now apply IH.
Qed.

Lemma fourDigits_table :
  forallb (fun n =>
             let s := addLeadingZeros (Z.of_nat n) 4 in
             allDigits s && Nat.eqb (String.length s) 4
             && match JS.digitsPrefix s None with
                | Some v => v =? Z.of_nat n
                | None => false
                end)
          (seq 0 (Z.to_nat 10000)) = true.
Proof. vm_compute. reflexivity. Qed.

Lemma twoDigits_values :
  forallb (fun n =>
             let s := addLeadingZeros (Z.of_nat n) 2 in
             allDigits s && Nat.eqb (String.length s) 2
             && match JS.digitsPrefix s None with
                | Some v => v =? Z.of_nat n
                | None => false
                end)
          (seq 0 100) = true.
Proof. vm_compute. reflexivity. Qed.

Lemma takeDigits_padded4 n rest :
  0 <= n < 10000 ->
  takeDigits 4 (addLeadingZeros n 4 ++ rest)%string None = (Some n, rest).
Proof.
  intros H. pose proof fourDigits_table as T. rewrite forallb_forall in T.
  specialize (T (Z.to_nat n)). rewrite Z2Nat.id in T by lia.
  assert (I : In (Z.to_nat n) (seq 0 (Z.to_nat 10000))) by (apply in_seq; lia).
  apply T in I. cbn zeta in I.
  apply andb_true_iff in I. destruct I as [I V].
  apply andb_true_iff in I. destruct I as [D L].
  apply Nat.eqb_eq in L.
  destruct (JS.digitsPrefix (addLeadingZeros n 4) None) as [v|] eqn:P;
    [|discriminate].
  apply Z.eqb_eq in V. subst v.
  rewrite <- L at 1. rewrite takeDigits_exact by assumption. now rewrite P.
Qed.

Lemma takeDigits_padded2 n rest :
  0 <= n < 100 ->
  takeDigits 2 (addLeadingZeros n 2 ++ rest)%string None = (Some n, rest).
Proof.
  intros H. pose proof twoDigits_values as T. rewrite forallb_forall in T.
  specialize (T (Z.to_nat n)). rewrite Z2Nat.id in T by lia.
  assert (I : In (Z.to_nat n) (seq 0 100)) by (apply in_seq; lia).
  apply T in I. cbn zeta in I.
  apply andb_true_iff in I. destruct I as [I V].
  apply andb_true_iff in I. destruct I as [D L].
  apply Nat.eqb_eq in L.
  destruct (JS.digitsPrefix (addLeadingZeros n 2) None) as [v|] eqn:P;
    [|discriminate].
  apply Z.eqb_eq in V. subst v.
  rewrite <- L at 1. rewrite takeDigits_exact by assumption. now rewrite P.
Qed.

Lemma string_append_nil s : (s ++ "")%string = s.
Proof. induction s as [|c s IH]; simpl; [reflexivity | now rewrite IH]. Qed.

(** [parse] reads back what [format] writes, for the days [parse] can
    give. *)
Lemma parse_format d :
  validDay d -> timeOfDay d = 0 -> 0 < year d <= 9999 ->
  parse (format d) = Some d.
Proof.
  intros [Hm Hd] T Y. unfold format, parse.
  pose proof (daysInMonth_bounds (year d) (month d)) as B.
  destruct (Z.ltb_spec 0 (year d)); [|lia].
  rewrite <- (string_append_nil (addLeadingZeros (day d) 2)).
  rewrite takeDigits_padded4 by lia. cbn [String.append].
  rewrite takeDigits_padded2 by lia. cbn [String.append].
  rewrite takeDigits_padded2 by lia.
  cbn [allWhiteSpace andb].
  destruct (Z.ltb_spec 0 (year d)); [|lia].
  destruct (Z.leb_spec 1 (month d)); [|lia].
  destruct (Z.leb_spec (month d) 12); [|lia].
  destruct (Z.leb_spec 1 (day d)); [|lia].
  destruct (Z.leb_spec (day d) (daysInMonth (year d) (month d))); [|lia].
  cbn [andb]. destruct d as [y m dd t]. simpl in T. now subst t.
Qed.

End ScaffoldMore.

(* ================================================================= *)
(** ** Further properties of the scaffold (lines 38, 58-71) *)

Module ScaffoldRuns.

Import DateFns Sigle Trace CalendarFacts ScaffoldFacts FormatFacts RunFacts
       ScaffoldMore.

Lemma digitValue_range c v : JS.digitValue c = Some v -> 0 <= v <= 9.
Proof.
  unfold JS.digitValue.
  destruct ((48 <=? nat_of_ascii c)%nat && (nat_of_ascii c <=? 57)%nat) eqn:E;
    [|discriminate].
  intros [= <-]. apply andb_true_iff in E. destruct E as [E1 E2].
  apply Nat.leb_le in E1. apply Nat.leb_le in E2. lia.
Qed.

Lemma takeDigits_bound n : forall s acc v rest bound,
  takeDigits n s acc = (Some v, rest) ->
  0 < bound ->
  (forall a, acc = Some a -> 0 <= a < bound) ->
  0 <= v < bound * 10 ^ Z.of_nat n.
Proof.
  induction n as [|n IH]; intros s acc v rest bound E Hb Ha.
  - simpl in E. injection E as E _. specialize (Ha v E). simpl. lia.
  - rewrite Nat2Z.inj_succ, Z.pow_succ_r by lia.
    assert (P : 0 < 10 ^ Z.of_nat n) by (apply Z.pow_pos_nonneg; lia).
    assert (Stop : acc = Some v -> 0 <= v < bound * (10 * 10 ^ Z.of_nat n)).
    { intros Q. specialize (Ha v Q). nia. }
    cbn [takeDigits] in E. destruct s as [|c s]; [injection E as E _; auto|].
    destruct (JS.digitValue c) as [d|] eqn:D; [|injection E as E _; auto].
    apply digitValue_range in D.
    specialize (IH _ _ _ _ (bound * 10) E).
    rewrite <- Z.mul_assoc in IH. apply IH; [lia|].
    intros a Q. destruct acc as [a0|].
    + specialize (Ha a0 eq_refl).
      assert (a = 10 * a0 + d) by (cbv beta iota in Q; congruence). lia.
    + assert (a = 10 * 0 + d) by (cbv beta iota in Q; congruence). lia.
Qed.

(** [parse] gives years of at most four digits. *)
Lemma parse_year s d : parse s = Some d -> year d <= 9999.
Proof.
  unfold parse.
  destruct (takeDigits 4 s None) as [[y|] [|c1 s1]] eqn:T; try discriminate.
  destruct (Ascii.eqb_spec c1 "-"); [subst c1|].
  2:{ destruct c1 as [[] [] [] [] [] [] [] []]; try discriminate. congruence. }
  destruct (takeDigits 2 s1 None) as [[m|] [|c2 s2]]; try discriminate.
  destruct (Ascii.eqb_spec c2 "-"); [subst c2|].
  2:{ destruct c2 as [[] [] [] [] [] [] [] []]; try discriminate. congruence. }
  destruct (takeDigits 2 s2 None) as [[dd|] rest]; try discriminate.
  destruct (allWhiteSpace rest && (0 <? y) && (1 <=? m) && (m <=? 12)
            && (1 <=? dd) && (dd <=? daysInMonth y m)); [|discriminate].
  intros [= <-]. cbn [year].
  apply (takeDigits_bound 4 s None y _ 1) in T; [|lia|discriminate].
  change (10 ^ Z.of_nat 4) with 10000 in T. lia.
Qed.

(** On a time line without clock changes: served after local midnight
    the scaffold ends with the current day, served at midnight it does
    not hold it. *)
Lemma ends_today
    (env : Env) (query : AnalyticsHistoricalParams)
    (s : string) (start : DateTime) (series : list Bucket) :
  dateFrom query = Some s ->
  parse s = Some start ->
  scaffolded env query = Some series ->
  validDay (now env) ->
  isBefore (startOfDay (now env)) start = false ->
  (0 < timeOfDay (now env) ->
   exists earlier, series = earlier ++ [zeroBucket (startOfDay (now env))])
  /\ (timeOfDay (now env) <= 0 ->
      ~ In (format (startOfDay (now env))) (map date series)).
Proof.
  intros D P S Vn N.
  destruct (scaffolded_Some _ _ _ S) as [s' [start' [g [days [V [P' [C ->]]]]]]].
  destruct (validate_inr _ _ _ _ V) as [D' _].
  assert (s' = s) by congruence. subst s'.
  assert (start' = start) by congruence. subst start'.
  destruct (parse_valid _ _ P) as [Hv [T Y]].
  pose proof (startOfDay_valid _ Vn) as Vt.
  assert (R : dayRank start <= dayRank (startOfDay (now env))).
  { apply notBefore_rank; try assumption. simpl. lia. }
  split.
  - intros Tn.
    assert (I : In (startOfDay (now env)) days).
    { apply (Covers_complete _ _ _ C Hv); try assumption.
      - simpl. lia.
      - apply isBefore_true. simpl. lia. }
    destruct (sorted_last (fun a b => isBefore a b = true) days
                (startOfDay (now env))) as [earlier E].
    + now apply Covers_sorted with (dateTo := now env) (d := start).
    + exact I.
    + intros c Hc B.
      destruct (Covers_sound _ _ _ C Hv c Hc) as [_ [Tc [_ L]]].
      apply isBefore_true in B. apply isBefore_true in L. simpl in B. lia.
    + exists (map zeroBucket earlier). rewrite E, map_app. reflexivity.
  - intros Tn I. rewrite map_map in I. cbn [zeroBucket date] in I.
    apply in_map_iff in I. destruct I as [c [E I]].
    destruct (Covers_sound _ _ _ C Hv c I) as [Vc [Tc [Rc L]]].
    assert (Yc : 0 < year c).
    { destruct (Z.lt_ge_cases 0 (year c)) as [|G]; [assumption|].
      exfalso. assert (X : dayRank c < dayRank start).
      { apply (dayRank_lt c start Vc Hv). lia. }
      lia. }
    assert (Yt : 0 < year (startOfDay (now env))).
    { destruct (Z.lt_ge_cases 0 (year (startOfDay (now env)))) as [|G]; [assumption|].
      exfalso. assert (X : dayRank (startOfDay (now env)) < dayRank start).
      { apply (dayRank_lt _ start Vt Hv). lia. }
      lia. }
    apply format_inj in E; try assumption.
    apply isBefore_true in L. simpl in E. lia.
Qed.

(** X9.  In a time zone that skips no beginning of a day (no clock
    change at local midnight): when the request is served after local
    midnight, on the day of [dateFrom] or later, the scaffold ends with
    the zero bucket of the current day; when it is served at midnight
    exactly, the current day has no bucket. *)
Theorem series_ends_today
    (zone : Zoned.TimeZone) (env : Env) (query : AnalyticsHistoricalParams)
    (s : string) (start : DateTime) (series : list Bucket) :
  Zoned.startsEveryDayAtMidnight zone ->
  dateFrom query = Some s ->
  Zoned.parse zone s = Some start ->
  Zoned.scaffolded zone env query = Some series ->
  validDay (now env) ->
  isBefore (startOfDay (now env)) start = false ->
  (0 < timeOfDay (now env) ->
   exists earlier,
     series = earlier
              ++ [mkBucket (format (startOfDay (now env))) (JS.Num 0) (JS.Num 0)])
  /\ (timeOfDay (now env) <= 0 ->
      ~ In (format (startOfDay (now env))) (map date series)).
Proof.
  intros Z D P S Vn N.
  rewrite ZonedFacts.scaffolded_eq in S by assumption.
  unfold Zoned.parse in P. destruct (parse s) as [d|] eqn:P'; [|discriminate].
  simpl in P. rewrite ZonedFacts.resolve_id in P by assumption.
  injection P as ->.
  exact (ends_today env query s start series D P' S Vn N).
Qed.

Lemma series_ends_today_witness :
  (exists earlier,
      [mkBucket "2024-01-01" (JS.Num 0) (JS.Num 0);
       mkBucket "2024-01-02" (JS.Num 0) (JS.Num 0)]
      = earlier
        ++ [mkBucket (format (startOfDay (now Samples.sameDayTwice)))
                     (JS.Num 0) (JS.Num 0)])
  /\ ~ In (format (startOfDay (now MoreSamples.atMidnight)))
          (map date [mkBucket "2024-01-01" (JS.Num 0) (JS.Num 0);
                     mkBucket "2024-01-02" (JS.Num 0) (JS.Num 0)]).
Proof.
  split.
  - destruct (series_ends_today Zoned.utc Samples.sameDayTwice Samples.dayQuery
                "2024-01-01" (mkDateTime 2024 1 1 0)
                [mkBucket "2024-01-01" (JS.Num 0) (JS.Num 0);
                 mkBucket "2024-01-02" (JS.Num 0) (JS.Num 0)]
                ZonedFacts.utc_startsEveryDayAtMidnight
                eq_refl eq_refl eq_refl) as [H _].
    + unfold validDay. cbn. repeat split; discriminate.
    + reflexivity.
    + apply H. reflexivity.
  - destruct (series_ends_today Zoned.utc MoreSamples.atMidnight Samples.dayQuery
                "2024-01-01" (mkDateTime 2024 1 1 0)
                [mkBucket "2024-01-01" (JS.Num 0) (JS.Num 0);
                 mkBucket "2024-01-02" (JS.Num 0) (JS.Num 0)]
                ZonedFacts.utc_startsEveryDayAtMidnight
                eq_refl eq_refl eq_refl) as [_ H].
    + unfold validDay. cbn. repeat split; discriminate.
    + reflexivity.
    + apply H. discriminate.
Defined.

(** X10.  Serving the same query later only adds buckets at the end: the
    scaffold of the earlier request is a prefix of the scaffold of the
    later one. *)
Theorem later_request_extends
    (env env' : Env) (query : AnalyticsHistoricalParams)
    (series series' : list Bucket) :
  scaffolded env query = Some series ->
  scaffolded env' query = Some series' ->
  isBefore (now env') (now env) = false ->
  exists more, series' = series ++ more.
Proof.
  intros S S' L.
  destruct (scaffolded_Some _ _ _ S) as [s [start [g [days [V [_ [C ->]]]]]]].
  destruct (scaffolded_Some _ _ _ S') as [s' [start' [g' [days' [V' [_ [C' ->]]]]]]].
  assert (start' = start) by congruence. subst start'.
  destruct (Covers_prefix _ _ _ _ C L _ C') as [more ->].
  exists (map zeroBucket more). apply map_app.
Qed.

Lemma later_request_extends_witness :
  exists more,
    [zeroBucket (mkDateTime 2024 1 1 0); zeroBucket (mkDateTime 2024 1 2 0);
     zeroBucket (mkDateTime 2024 1 3 0); zeroBucket (mkDateTime 2024 1 4 0)]
    = [zeroBucket (mkDateTime 2024 1 1 0); zeroBucket (mkDateTime 2024 1 2 0)] ++ more.
Proof.
  apply (later_request_extends Samples.sameDayTwice Samples.twoStories
           Samples.dayQuery _ _ eq_refl eq_refl eq_refl).
Defined.

(** X11.  If [dateFrom] is before now, the scaffold starts with the
    bucket of the day of [dateFrom], and the date of that bucket, given
    as [dateFrom], parses to the same day: it is [dateFrom] written
    yyyy-MM-dd. *)
Theorem series_starts_at_dateFrom
    (env : Env) (query : AnalyticsHistoricalParams)
    (s : string) (start : DateTime) (series : list Bucket) :
  dateFrom query = Some s ->
  parse s = Some start ->
  scaffolded env query = Some series ->
  isBefore start (now env) = true ->
  exists rest,
    series = mkBucket (format start) (JS.Num 0) (JS.Num 0) :: rest
    /\ parse (format start) = parse s.
Proof.
  intros D P S B.
  destruct (scaffolded_Some _ _ _ S) as [s' [start' [g [days [V [P' [C ->]]]]]]].
  destruct (validate_inr _ _ _ _ V) as [D' _].
  assert (s' = s) by congruence. subst s'.
  assert (start' = start) by congruence. subst start'.
  inversion C; subst; [congruence|].
  eexists. split; [reflexivity|].
  destruct (parse_valid _ _ P) as [Hv [T Y]].
  pose proof (parse_year _ _ P).
  rewrite P. apply parse_format; (assumption || lia).
Qed.

Lemma series_starts_at_dateFrom_witness :
  exists rest,
    [zeroBucket (mkDateTime 2024 1 5 0); zeroBucket (mkDateTime 2024 1 6 0)]
    = mkBucket (format (mkDateTime 2024 1 5 0)) (JS.Num 0) (JS.Num 0) :: rest
    /\ parse (format (mkDateTime 2024 1 5 0)) = parse "2024-1-5 ".
Proof.
  apply (series_starts_at_dateFrom
           (mkEnv (mkDateTime 2024 1 6 1) Samples.resolved
                  (fun _ => []) (fun _ _ _ => []) (fun _ => "0"))
           (mkParams (Some "2024-1-5 ") (Some "month"))
           "2024-1-5 " (mkDateTime 2024 1 5 0) _ eq_refl eq_refl eq_refl eq_refl).
Defined.

(** X12.  While the request is served in a year of at most four digits,
    every date of the scaffold is a string that [parse] accepts, and it
    parses to the day it was formatted from: a date of the series can be
    sent back as [dateFrom]. *)
Theorem series_dates_parse_back
    (env : Env) (query : AnalyticsHistoricalParams) (series : list Bucket) :
  scaffolded env query = Some series ->
  year (now env) <= 9999 ->
  Forall (fun bucket =>
            exists c, parse (date bucket) = Some c
                      /\ format c = date bucket
                      /\ validDay c /\ isBefore c (now env) = true) series.
Proof.
  intros S Y.
  destruct (scaffolded_Some _ _ _ S) as [s [start [g [days [V [P [C ->]]]]]]].
  destruct (parse_valid _ _ P) as [Hv [T Ys]].
  apply Forall_forall. intros b I. apply in_map_iff in I.
  destruct I as [c [<- I]]. cbn [zeroBucket date].
  destruct (Covers_sound _ _ _ C Hv c I) as [Vc [Tc [Rc L]]].
  exists c. repeat split; try assumption; try apply Vc.
  apply parse_format; [assumption | lia |].
  pose proof L as L'. apply isBefore_true in L'.
  assert (0 < year c).
  { destruct (Z.lt_ge_cases 0 (year c)) as [|G]; [assumption|].
    exfalso. assert (X : dayRank c < dayRank start).
    { apply (dayRank_lt c start Vc Hv). lia. }
    lia. }
  lia.
Qed.

Lemma series_dates_parse_back_witness :
  Forall (fun bucket =>
            exists c, parse (date bucket) = Some c
                      /\ format c = date bucket
                      /\ validDay c
                      /\ isBefore c (now Samples.sameDayTwice) = true)
         [zeroBucket (mkDateTime 2024 1 1 0); zeroBucket (mkDateTime 2024 1 2 0)].
Proof.
  apply (series_dates_parse_back Samples.sameDayTwice Samples.dayQuery _ eq_refl).
  discriminate.
Defined.

End ScaffoldRuns.

(* ================================================================= *)
(** ** Reports and counts that do not parse *)

Module Reports.

Import DateFns Sigle Trace ObjFacts MergeFacts MergeMore WriteBackFacts RunFacts
       RunMore.

Lemma Reported_app env a b :
  Reported env a -> Reported env b -> Reported env (a ++ b).
Proof.
  induction 1 as [|e rest N R IH|message rest R IH]; intros B; simpl.
  - assumption.
  - apply reported_other; auto.
  - apply reported_error. auto.
Qed.

Lemma Reported_calls env dateFrom' grouping paths :
  Reported env (map (CallAggregatePath dateFrom' grouping) paths).
Proof.
  induction paths as [|p paths IH]; simpl; [constructor|].
  apply reported_other; [discriminate | assumption].
Qed.

Lemma Reported_reports env dates :
  Reported env (flat_map (reportEvents env) dates).
Proof.
  induction dates as [|d dates IH]; simpl; [constructor|].
  apply reported_error. assumption.
Qed.

(** In such a trace, what comes before a 500 response ends with the
    report whose identifier it carries. *)
Lemma Reported_split env events :
  Reported env events ->
  forall before body after,
    events = before ++ Respond 500 body :: after ->
    exists before' message,
      before = before' ++ [CallCaptureMessage message]
      /\ body = ErrorBody ("Internal server error: " ++ captureMessage env message)%string.
Proof.
  induction 1 as [|e rest N R IH|message rest R IH]; intros before body after E.
  - destruct before; discriminate.
  - destruct before as [|x before]; simpl in E.
    + injection E as E _. exfalso. exact (N _ E).
    + injection E as -> E. destruct (IH _ _ _ E) as [before' [m [-> B]]].
      exists (x :: before'), m. split; [reflexivity | assumption].
  - destruct before as [|x [|y before]]; simpl in E.
    + discriminate.
    + injection E as <- E _.
      exists [], message. split; [reflexivity | now rewrite <- E].
    + injection E as <- <- E. destruct (IH _ _ _ E) as [before' [m [-> B]]].
      exists (CallCaptureMessage message
              :: Respond 500
                   (ErrorBody ("Internal server error: "
                                 ++ captureMessage env message)%string)
              :: before'), m.
      split; [reflexivity | assumption].
Qed.

Lemma run_Reported env query events :
  analyticsHistoricalEndpoint env query = Some events -> Reported env events.
Proof.
  intros E. pose proof (run_cases env query) as R.
  destruct (validate query) as [message | [[dateFrom' start] grouping]] eqn:V.
  - assert (events = [Respond 400 (ErrorBody message)]) by congruence. subst.
    apply reported_other; [|constructor]. intros body [=].
  - destruct R as [days [_ [_ R]]].
    destruct (fathomAggregationResult env query) as [results|] eqn:A.
    + destruct (fetch_run env query results A)
        as [d' [s' [g' [days' [u [_ [_ [_ [_ [_ F]]]]]]]]]].
      assert (Ev : events
                   = fetchTrace env d' g' u (merge results) (map zeroBucket days')
                     ++ [Respond 200
                           (SeriesBody (map (mergedBucket (merge results))
                                            (map zeroBucket days')))])
        by congruence.
      subst events. unfold fetchTrace, fetchCalls.
      apply Reported_app; [apply Reported_app|].
      * apply reported_other; [discriminate|].
        apply reported_other; [discriminate|]. apply Reported_calls.
      * apply Reported_reports.
      * apply reported_other; [|constructor]. intros body [=].
    + assert (events = resolutionFailure env) by congruence. subst.
      unfold resolutionFailure. apply reported_other; [discriminate|].
      apply reported_error. constructor.
Qed.

Lemma fold_add_NaN l : fold_left JS.add l JS.NaN = JS.NaN.
Proof. induction l as [|x l IH]; simpl; [reflexivity | exact IH]. Qed.

(** A sum is [NaN] exactly when one of its terms is. *)
Lemma sum_NaN l : forall a,
  fold_left JS.add l (JS.Num a) = JS.NaN <-> In JS.NaN l.
Proof.
  induction l as [|x l IH]; intros a; simpl.
  - split; [discriminate | tauto].
  - destruct x as [|b]; simpl.
    + rewrite fold_add_NaN. tauto.
    + rewrite IH. split; [tauto|]. intros [H|H]; [discriminate | assumption].
Qed.

(** X13.  Every 500 response of a run comes right after a call of
    [captureMessage], and its body is "Internal server error: " followed
    by the identifier that call returned: no server error is sent without
    being reported. *)
Theorem server_errors_are_reported
    (env : Env) (query : AnalyticsHistoricalParams)
    (before after : list Event) (body : Body) :
  analyticsHistoricalEndpoint env query
  = Some (before ++ Respond 500 body :: after) ->
  exists before' message,
    before = before' ++ [CallCaptureMessage message]
    /\ body = ErrorBody ("Internal server error: " ++ captureMessage env message)%string.
Proof.
  intros E. apply run_Reported in E.
  eapply Reported_split; [exact E | reflexivity].
Qed.

Lemma server_errors_are_reported_witness :
  exists before' message,
    [CallGetBucketUrl "sigleapp.id.blockstack";
     CallGetPublicStories "https://gaia.blockstack.org/hub/1/";
     CallAggregatePath "2024-01-01" "day" "/sigleapp.id.blockstack";
     CallCaptureMessage
       "No index for date 2024-01-03 and username sigleapp.id.blockstack"]
    = before' ++ [CallCaptureMessage message]
    /\ ErrorBody "Internal server error: 00000000000000000000000000000001"
       = ErrorBody ("Internal server error: "
                      ++ captureMessage Samples.dateOutsideScaffold message)%string.
Proof.
  apply (server_errors_are_reported Samples.dateOutsideScaffold Samples.dayQuery
           [CallGetBucketUrl "sigleapp.id.blockstack";
            CallGetPublicStories "https://gaia.blockstack.org/hub/1/";
            CallAggregatePath "2024-01-01" "day" "/sigleapp.id.blockstack";
            CallCaptureMessage
              "No index for date 2024-01-03 and username sigleapp.id.blockstack"]
           [Respond 200
              (SeriesBody [mkBucket "2024-01-01" (JS.Num 2) (JS.Num 1);
                           mkBucket "2024-01-02" (JS.Num 0) (JS.Num 0)])]).
  reflexivity.
Defined.

(** X14.  The total of [visits] kept for a date is [NaN] exactly when
    the [visits] of one of the rows of that date does not parse to a
    number, whatever the other rows hold; likewise for [pageviews]. *)
Theorem total_is_NaN_iff
    (results : list (list Fathom.AggregationRow)) (d : string) (v : DateValues) :
  Obj.get d (merge results) = Some v ->
  (totalVisits v = JS.NaN <->
   exists result, In result (rowsFor d results)
                  /\ JS.parseInt (Fathom.visits result) = JS.NaN)
  /\ (totalPageviews v = JS.NaN <->
      exists result, In result (rowsFor d results)
                     /\ JS.parseInt (Fathom.pageviews result) = JS.NaN).
Proof.
  rewrite get_merge.
  destruct (rowsFor d results) as [|r rs] eqn:Q; [discriminate|].
  intros E.
  assert (V : v = mkDateValues
                    (sumNumbers (map (fun result => JS.parseInt (Fathom.visits result))
                                     (r :: rs)))
                    (sumNumbers (map (fun result => JS.parseInt (Fathom.pageviews result))
                                     (r :: rs))))
    by congruence.
  clear E. subst v. cbn [totalVisits totalPageviews]. unfold sumNumbers.
  split.
  - etransitivity; [apply sum_NaN|]. etransitivity; [apply in_map_iff|].
    split; intros [x [H1 H2]]; eauto.
  - etransitivity; [apply sum_NaN|]. etransitivity; [apply in_map_iff|].
    split; intros [x [H1 H2]]; eauto.
Qed.

Lemma total_is_NaN_iff_witness :
  (totalVisits (mkDateValues (JS.Num 1) JS.NaN) = JS.NaN <->
   exists result,
     In result (rowsFor "2024-01-01"
                  [[Fathom.mkRow "2024-01-01" "-3" "n/a"];
                   [Fathom.mkRow "2024-01-01" "4" "7"]])
     /\ JS.parseInt (Fathom.visits result) = JS.NaN)
  /\ (totalPageviews (mkDateValues (JS.Num 1) JS.NaN) = JS.NaN <->
      exists result,
        In result (rowsFor "2024-01-01"
                     [[Fathom.mkRow "2024-01-01" "-3" "n/a"];
                      [Fathom.mkRow "2024-01-01" "4" "7"]])
        /\ JS.parseInt (Fathom.pageviews result) = JS.NaN).
Proof.
  apply (total_is_NaN_iff
           [[Fathom.mkRow "2024-01-01" "-3" "n/a"];
            [Fathom.mkRow "2024-01-01" "4" "7"]]
           "2024-01-01" (mkDateValues (JS.Num 1) JS.NaN)).
  reflexivity.
Defined.

End Reports.
